(** * rjgtoys.progressive.thread: the [Threaded] progress-tracking wrapper

    A shallow embedding of [src/rjgtoys/progressive/thread.py].

    The module is Python 2 code (the example driver uses the [print]
    statement), so [/] on two integers is floor division and progress
    counters are unbounded integers ([Z]).  Timestamps are the doubles
    returned by [time.time()], modelled by Rocq's primitive binary64
    floats.

    Threads.  A [Threaded] object is shared by the calling thread and by
    the worker thread spawned by [start].  The worker is modelled as a
    resumable computation: the position it has reached inside
    [_run_stop]/[run] is recorded in the [_worker] attribute, and the
    wrapped callable is a tree of the calls it makes on the injected
    tracker.  Caller-side methods run to completion on the shared
    state; the worker advances by [thread_step].  The re-entrant lock
    [_lock] is held by [start] for the whole of its handshake, which is
    why a worker that needs the lock before it has called [set_goal]
    never gets it. *)

From Stdlib Require Import PrimFloat SpecFloat FloatOps.
From Stdlib Require Import ZArith List String Bool Lia.
Import ListNotations.
Open Scope Z_scope.

(** ** Python values and exceptions *)

(** The values a wrapped callable receives and returns. *)
Inductive value :=
| PyNone
| PyInt (z : Z)
| PyStr (s : string).

(** Exceptions: the module's own classes, the interpreter errors the
    module's code can provoke, and [Failure kind payload] for whatever
    the wrapped callable raises itself (class name and message). *)
Inductive exn :=
| Bug (description : string)
| AlreadyStartedError
| ActionFailedError
| NameError (name : string)
| AttributeError (attr : string)
| TypeError (msg : string)
| OverflowError (msg : string)
| Failure (kind payload : string).

(** Names bound at module level in thread.py: the two [import]s, the
    [from rjgtoys.xc import], the classes and the three constants. *)
Definition module_globals : list string :=
  ["threading"; "time"; "BaseXC"; "BugXC"; "Bug"; "ErrorXC";
   "NothingToDoError"; "AlreadyStartedError"; "ActionFailedError";
   "Thread"; "RETURN_NOTHING"; "RETURN_VALUE"; "RETURN_EXCEPTION";
   "Threaded"]%string.

Definition global_defined (n : string) : bool :=
  existsb (String.eqb n) module_globals.

(** codes to indicate how the function returned *)
Definition RETURN_NOTHING : Z := 0.
Definition RETURN_VALUE : Z := 1.
Definition RETURN_EXCEPTION : Z := 2.

(** ** The wrapped callable

    What [self._target(self, *args)] does, seen from the wrapper: the
    calls it makes on the tracker, then a return or a raise.  These are
    the callables that come back from each of their calls; one that
    blocks or loops for ever without the tracker has no such tree. *)
Inductive prog :=
| Return (r : value)
| Raise (e : exn)
| SetGoal (steps : option Z) (done : Z) (k : prog)
| Update (delta : Z) (k : prog)
| Stopping (k : bool -> prog).

(** The value of [sys.exc_info()]: [(None, None, None)] or the triple
    of the exception being handled, of which only the value matters. *)
Inductive exc_info :=
| NoExcInfo
| ExcInfo (e : exn).

(** Where the worker thread stands. *)
Inductive thread :=
| Spawned (args : list value)     (* started, [_run_stop] not yet entered *)
| InTarget (p : prog)             (* in [run], inside the wrapped callable *)
| Storing (r : value)             (* in [run], [_return] set, [_result] not yet *)
| Handling (e : exn)              (* in [run], [except:], [_return] set *)
| AfterRun                        (* [run] has returned to [_run_stop] *)
| Terminated (uncaught : option exn).

Definition is_alive (t : thread) : bool :=
  match t with
  | Terminated _ => false
  | _ => true
  end.

(** ** The object *)

Record Threaded := mkThreaded {
  _target : option (list value -> prog);  (* the wrapped callable, applied to the caller's arguments *)
  name : option string;
  _stopping : bool;  (* threading.Event: is_set() *)
  _started : bool;  (* threading.Event: is_set() *)
  _running : bool;
  _steps : Z;
  _done : Z;
  since : option float;  (* None: the attribute does not exist yet *)
  _updated : option float;
  _return : option Z;
  _result : option value;
  _exc_info : option exc_info;
  _worker : option thread;  (* the thread spawned by the latest start *)
  sampled : option float;  (* the attributes written by sample() *)
  updated : option float;
  steps : option Z;
  done : option Z;
  pcdone : option Z;
  ttg : option float;
  eta : option float;
  elapsed : option float
}.

Definition set__stopping (v : bool) (o : Threaded) : Threaded :=
  mkThreaded (_target o) (name o) v (_started o) (_running o) (_steps o)
    (_done o) (since o) (_updated o) (_return o) (_result o) (_exc_info o)
    (_worker o) (sampled o) (updated o) (steps o) (done o) (pcdone o) (ttg o)
    (eta o) (elapsed o).

Definition set__started (v : bool) (o : Threaded) : Threaded :=
  mkThreaded (_target o) (name o) (_stopping o) v (_running o) (_steps o)
    (_done o) (since o) (_updated o) (_return o) (_result o) (_exc_info o)
    (_worker o) (sampled o) (updated o) (steps o) (done o) (pcdone o) (ttg o)
    (eta o) (elapsed o).

Definition set__running (v : bool) (o : Threaded) : Threaded :=
  mkThreaded (_target o) (name o) (_stopping o) (_started o) v (_steps o)
    (_done o) (since o) (_updated o) (_return o) (_result o) (_exc_info o)
    (_worker o) (sampled o) (updated o) (steps o) (done o) (pcdone o) (ttg o)
    (eta o) (elapsed o).

Definition set__steps (v : Z) (o : Threaded) : Threaded :=
  mkThreaded (_target o) (name o) (_stopping o) (_started o) (_running o) v
    (_done o) (since o) (_updated o) (_return o) (_result o) (_exc_info o)
    (_worker o) (sampled o) (updated o) (steps o) (done o) (pcdone o) (ttg o)
    (eta o) (elapsed o).

Definition set__done (v : Z) (o : Threaded) : Threaded :=
  mkThreaded (_target o) (name o) (_stopping o) (_started o) (_running o)
    (_steps o) v (since o) (_updated o) (_return o) (_result o) (_exc_info o)
    (_worker o) (sampled o) (updated o) (steps o) (done o) (pcdone o) (ttg o)
    (eta o) (elapsed o).

Definition set_since (v : option float) (o : Threaded) : Threaded :=
  mkThreaded (_target o) (name o) (_stopping o) (_started o) (_running o)
    (_steps o) (_done o) v (_updated o) (_return o) (_result o) (_exc_info o)
    (_worker o) (sampled o) (updated o) (steps o) (done o) (pcdone o) (ttg o)
    (eta o) (elapsed o).

Definition set__updated (v : option float) (o : Threaded) : Threaded :=
  mkThreaded (_target o) (name o) (_stopping o) (_started o) (_running o)
    (_steps o) (_done o) (since o) v (_return o) (_result o) (_exc_info o)
    (_worker o) (sampled o) (updated o) (steps o) (done o) (pcdone o) (ttg o)
    (eta o) (elapsed o).

Definition set__return (v : option Z) (o : Threaded) : Threaded :=
  mkThreaded (_target o) (name o) (_stopping o) (_started o) (_running o)
    (_steps o) (_done o) (since o) (_updated o) v (_result o) (_exc_info o)
    (_worker o) (sampled o) (updated o) (steps o) (done o) (pcdone o) (ttg o)
    (eta o) (elapsed o).

Definition set__result (v : option value) (o : Threaded) : Threaded :=
  mkThreaded (_target o) (name o) (_stopping o) (_started o) (_running o)
    (_steps o) (_done o) (since o) (_updated o) (_return o) v (_exc_info o)
    (_worker o) (sampled o) (updated o) (steps o) (done o) (pcdone o) (ttg o)
    (eta o) (elapsed o).

Definition set__exc_info (v : option exc_info) (o : Threaded) : Threaded :=
  mkThreaded (_target o) (name o) (_stopping o) (_started o) (_running o)
    (_steps o) (_done o) (since o) (_updated o) (_return o) (_result o) v
    (_worker o) (sampled o) (updated o) (steps o) (done o) (pcdone o) (ttg o)
    (eta o) (elapsed o).

Definition set__worker (v : option thread) (o : Threaded) : Threaded :=
  mkThreaded (_target o) (name o) (_stopping o) (_started o) (_running o)
    (_steps o) (_done o) (since o) (_updated o) (_return o) (_result o)
    (_exc_info o) v (sampled o) (updated o) (steps o) (done o) (pcdone o)
    (ttg o) (eta o) (elapsed o).

Definition set_sampled (v : option float) (o : Threaded) : Threaded :=
  mkThreaded (_target o) (name o) (_stopping o) (_started o) (_running o)
    (_steps o) (_done o) (since o) (_updated o) (_return o) (_result o)
    (_exc_info o) (_worker o) v (updated o) (steps o) (done o) (pcdone o)
    (ttg o) (eta o) (elapsed o).

Definition set_updated (v : option float) (o : Threaded) : Threaded :=
  mkThreaded (_target o) (name o) (_stopping o) (_started o) (_running o)
    (_steps o) (_done o) (since o) (_updated o) (_return o) (_result o)
    (_exc_info o) (_worker o) (sampled o) v (steps o) (done o) (pcdone o)
    (ttg o) (eta o) (elapsed o).

Definition set_steps (v : option Z) (o : Threaded) : Threaded :=
  mkThreaded (_target o) (name o) (_stopping o) (_started o) (_running o)
    (_steps o) (_done o) (since o) (_updated o) (_return o) (_result o)
    (_exc_info o) (_worker o) (sampled o) (updated o) v (done o) (pcdone o)
    (ttg o) (eta o) (elapsed o).

Definition set_done (v : option Z) (o : Threaded) : Threaded :=
  mkThreaded (_target o) (name o) (_stopping o) (_started o) (_running o)
    (_steps o) (_done o) (since o) (_updated o) (_return o) (_result o)
    (_exc_info o) (_worker o) (sampled o) (updated o) (steps o) v (pcdone o)
    (ttg o) (eta o) (elapsed o).

Definition set_pcdone (v : option Z) (o : Threaded) : Threaded :=
  mkThreaded (_target o) (name o) (_stopping o) (_started o) (_running o)
    (_steps o) (_done o) (since o) (_updated o) (_return o) (_result o)
    (_exc_info o) (_worker o) (sampled o) (updated o) (steps o) (done o) v
    (ttg o) (eta o) (elapsed o).

Definition set_ttg (v : option float) (o : Threaded) : Threaded :=
  mkThreaded (_target o) (name o) (_stopping o) (_started o) (_running o)
    (_steps o) (_done o) (since o) (_updated o) (_return o) (_result o)
    (_exc_info o) (_worker o) (sampled o) (updated o) (steps o) (done o)
    (pcdone o) v (eta o) (elapsed o).

Definition set_eta (v : option float) (o : Threaded) : Threaded :=
  mkThreaded (_target o) (name o) (_stopping o) (_started o) (_running o)
    (_steps o) (_done o) (since o) (_updated o) (_return o) (_result o)
    (_exc_info o) (_worker o) (sampled o) (updated o) (steps o) (done o)
    (pcdone o) (ttg o) v (elapsed o).

Definition set_elapsed (v : option float) (o : Threaded) : Threaded :=
  mkThreaded (_target o) (name o) (_stopping o) (_started o) (_running o)
    (_steps o) (_done o) (since o) (_updated o) (_return o) (_result o)
    (_exc_info o) (_worker o) (sampled o) (updated o) (steps o) (done o)
    (pcdone o) (ttg o) (eta o) v.
(** [Threaded.__init__] *)
Definition __init__ (target : option (list value -> prog))
    (name : option string) : Threaded :=
  {| _target := target;
     name := name;
     _stopping := false;
     _started := false;
     _running := false;
     _steps := 0;
     _done := 0;
     since := None; _updated := None;
     _return := None; _result := None; _exc_info := None;
     _worker := None;
     sampled := None; updated := None; steps := None; done := None;
     pcdone := None; ttg := None; eta := None; elapsed := None |}.

(** The [Thread] decorator: [Thread(name)(f)]. *)
Definition Thread (name : option string) (f : list value -> prog) : Threaded :=
  __init__ (Some f) name.

(** ** The world: the object, the wall clock and the number of times
    [time.time()] has been read. *)
Record world := mkWorld {
  obj : Threaded;
  clock : nat -> float;
  ticks : nat
}.

Definition on_obj (f : Threaded -> Threaded) (w : world) : world :=
  mkWorld (f (obj w)) (clock w) (ticks w).

Definition set_thread (t : thread) : world -> world :=
  on_obj (set__worker (Some t)).

(** ** Method calls: state, exceptions and a caller that never returns *)

Inductive outcome (A : Type) :=
| Returned (a : A)
| Raised (e : exn)
| Blocked.
Arguments Returned {A} a.
Arguments Raised {A} e.
Arguments Blocked {A}.

Definition M (A : Type) : Type := world -> outcome A * world.

Definition ret {A} (a : A) : M A := fun w => (Returned a, w).
Definition raise {A} (e : exn) : M A := fun w => (Raised e, w).
Definition bind {A B} (m : M A) (k : A -> M B) : M B :=
  fun w =>
    match m w with
    | (Returned a, w') => k a w'
    | (Raised e, w') => (Raised e, w')
    | (Blocked, w') => (Blocked, w')
    end.

Declare Scope py_scope.
Delimit Scope py_scope with py.
Notation "x <- m ;; k" := (bind m (fun x => k))
  (at level 61, m at next level, right associativity) : py_scope.
Notation "m ;; k" := (bind m (fun _ => k))
  (at level 61, right associativity) : py_scope.
Open Scope py_scope.

(** [self.x = v] *)
Definition assign (f : Threaded -> Threaded) : M unit :=
  fun w => (Returned tt, on_obj f w).

(** [self.x] for an attribute set by [__init__] *)
Definition attr {A} (proj : Threaded -> A) : M A :=
  fun w => (Returned (proj (obj w)), w).

(** [self.x] for an attribute that may not exist yet *)
Definition getattr {A} (proj : Threaded -> option A) (x : string) : M A :=
  fun w =>
    match proj (obj w) with
    | Some a => (Returned a, w)
    | None => (Raised (AttributeError x), w)
    end.

(** [time.time()] *)
Definition time_time : M float :=
  fun w => (Returned (clock w (ticks w)), mkWorld (obj w) (clock w) (S (ticks w))).

(** A global name used in an expression. *)
Definition global (n : string) : M unit :=
  if global_defined n then ret tt else raise (NameError n).

(** The double nearest to an integer (infinite beyond the range). *)
Definition to_double (z : Z) : float :=
  SF2Prim (binary_normalize prec emax z 0 false).

(** Conversion of an integer operand in mixed arithmetic: correctly
    rounded, [OverflowError] beyond the range of a double. *)
Definition float_of_int (z : Z) : M float :=
  let f := to_double z in
  if is_infinity f
  then raise (OverflowError "long int too large to convert to float")
  else ret f.

(** ** Methods of [Threaded] used by the wrapped callable *)

(** [Threaded.set_goal]: no lock taken, no clamping. *)
Definition set_goal (steps : option Z) (done : Z) : M unit :=
  match steps with
  | Some s => assign (set__steps s)
  | None => ret tt
  end ;;
  assign (set__done done) ;;
  t <- time_time ;;
  assign (set__updated (Some t)) ;;
  assign (set__started true).

(** The [if self._done < 0 ... elif self._done > self._steps ...] of
    [update]. *)
Definition clamp (d s : Z) : Z :=
  if d <? 0 then 0 else if d >? s then s else d.

(** [Threaded.update], body of the [with self._lock] block. *)
Definition update (done : Z) : M unit :=
  t <- time_time ;;
  assign (set__updated (Some t)) ;;
  d <- attr _done ;;
  assign (set__done (d + done)) ;;
  d <- attr _done ;;
  s <- attr _steps ;;
  assign (set__done (clamp d s)).

(** [Threaded.stop] (defined twice in the class, with the same body). *)
Definition stop : M unit := assign (set__stopping true).

(** [Threaded.stopping] *)
Definition stopping : M bool := attr _stopping.

(** [Threaded.started] *)
Definition started : M bool := attr _started.

(** ** The worker thread *)

(** [Threaded.run], up to the call of the wrapped callable.
    [NothingToDoBug] is looked up before it could be instantiated. *)
Definition run_enter (args : list value) : M prog :=
  tgt <- attr _target ;;
  match tgt with
  | None =>
      global "NothingToDoBug" ;;
      raise (Failure "NothingToDoBug" "")
  | Some f =>
      assign (set__return (Some RETURN_NOTHING)) ;;
      assign (set__result (Some PyNone)) ;;
      assign (set__exc_info (Some NoExcInfo)) ;;
      ret (f args)
  end.

(** [Threaded.run], rest of the [try] block: the callable returned [r].
    Two assignments, no lock held: the kind of outcome first ... *)
Definition run_returned_kind : M unit :=
  assign (set__return (Some RETURN_VALUE)).

(** ... then the value. *)
Definition run_returned_value (r : value) : M unit :=
  assign (set__result (Some r)).

(** [Threaded.run], the [except:] clause: the callable raised [e].
    The kind of outcome first ... *)
Definition run_except_kind : M unit :=
  assign (set__return (Some RETURN_EXCEPTION)).

(** ... then [sys.exc_info()], which first needs the global name
    [sys]. *)
Definition run_except_info (e : exn) : M unit :=
  global "sys" ;;
  assign (set__exc_info (Some (ExcInfo e))).

(** A thread that cannot get the lock. *)
Definition acquire (locked : bool) : M unit :=
  fun w => if locked then (Blocked, w) else (Returned tt, w).

(** [Threaded._run_stop] once [self.run(...)] has returned. *)
Definition _run_stop_tail (locked : bool) : M unit :=
  s <- attr _started ;;
  if negb s then ret tt
  else
    acquire locked ;;
    update 0 ;;
    assign (set__started false) ;;
    assign (set__running false).

(** The position of the thread after a piece of its code has run: an
    exception goes to [handler]; a thread that is blocked has not
    moved. *)
Definition settle {A} (next : A -> thread) (handler : exn -> thread)
    (r : outcome A * world) : option world :=
  match r with
  | (Returned a, w') => Some (set_thread (next a) w')
  | (Raised e, w') => Some (set_thread (handler e) w')
  | (Blocked, _) => None
  end.

(** An exception nobody catches ends the thread. *)
Definition dies (e : exn) : thread := Terminated (Some e).

(** An exception inside the callable is the callable's to raise. *)
Definition propagates (e : exn) : thread := InTarget (Raise e).

(** One step of the worker thread.  [locked] says that another thread
    (the caller, inside [start]) holds [_lock].  A step is a piece of
    code that the caller cannot see half done: what runs under the lock;
    the prologue of [run] and a [set_goal], whose last write is the one
    [start] waits for; and each of the two assignments with which [run]
    ends, between which a [wait] with a timeout can come. *)
Definition thread_step (locked : bool) (w : world) : option world :=
  match _worker (obj w) with
  | Some (Spawned args) => settle InTarget dies (run_enter args w)
  | Some (InTarget p) =>
      match p with
      | SetGoal s d k =>
          settle (fun _ => InTarget k) propagates (set_goal s d w)
      | Update d k =>
          settle (fun _ => InTarget k) propagates
                 ((acquire locked ;; update d) w)
      | Stopping k =>
          settle (fun b => InTarget (k b)) propagates (stopping w)
      | Return r => settle (fun _ => Storing r) dies (run_returned_kind w)
      | Raise e => settle (fun _ => Handling e) dies (run_except_kind w)
      end
  | Some (Storing r) =>
      settle (fun _ => AfterRun) dies (run_returned_value r w)
  | Some (Handling e) =>
      settle (fun _ => AfterRun) dies (run_except_info e w)
  | Some AfterRun =>
      settle (fun _ => Terminated None) dies (_run_stop_tail locked w)
  | Some (Terminated _) => None
  | None => None
  end.

(** A bound on the number of steps a thread has left. *)
Fixpoint prog_depth (p : prog) : nat :=
  match p with
  | Return _ => 2
  | Raise _ => 2
  | SetGoal _ _ k => S (prog_depth k)
  | Update _ k => S (prog_depth k)
  | Stopping k => S (Nat.max (prog_depth (k true)) (prog_depth (k false)))
  end.

Definition budget (w : world) : nat :=
  match _worker (obj w) with
  | Some (Spawned args) =>
      match _target (obj w) with
      | Some f => 2 + prog_depth (f args)
      | None => 1
      end
  | Some (InTarget p) => 1 + prog_depth p
  | Some (Storing _) => 2
  | Some (Handling _) => 2
  | Some AfterRun => 1
  | Some (Terminated _) => 0
  | None => 0
  end%nat.

(** The worker runs on its own for at most [fuel] steps. *)
Fixpoint run_thread (fuel : nat) (w : world) : world :=
  match fuel with
  | O => w
  | S n =>
      match thread_step false w with
      | Some w' => run_thread n w'
      | None => w
      end
  end.

(** [self._worker.join(timeout)]: without a timeout the thread runs to
    its end; a timeout leaves it room for [n] steps. *)
Definition join (timeout : option nat) : M unit :=
  fun w =>
    match timeout with
    | None => (Returned tt, run_thread (budget w) w)
    | Some n => (Returned tt, run_thread n w)
    end.

(** ** Methods of [Threaded] used by the caller *)

(** [self._worker.is_alive()] *)
Definition worker_alive (w : world) : bool :=
  match _worker (obj w) with
  | Some t => is_alive t
  | None => false
  end.

(** The [while not self._started.wait(1.0)] loop of [start].  The
    caller holds [_lock]; the worker runs meanwhile.  A worker that is
    alive and waits for the lock keeps the caller in the loop for
    ever. *)
Fixpoint await_started (fuel : nat) (w : world) : outcome unit * world :=
  if _started (obj w) then (Returned tt, w)
  else if negb (worker_alive w)
  then (assign (set__running false) ;; raise ActionFailedError) w
  else
    match fuel with
    | O => (Blocked, w)
    | S n =>
        match thread_step true w with
        | Some w' => await_started n w'
        | None => (Blocked, w)
        end
    end.

(** [Threaded.start].  Creating and starting the thread is taken to
    succeed. *)
Definition start (args : list value) : M unit :=
  r <- attr _running ;;
  if r then raise AlreadyStartedError
  else
    assign (set__running true) ;;
    assign (set__started false) ;;
    t <- time_time ;;
    assign (set_since (Some t)) ;;
    assign (set__worker (Some (Spawned args))) ;;
    fun w => await_started (budget w) w.

(** The estimate of [sample]: time to do the rest minus time since the
    update,
    [(((updated-since)*(100.-pcdone))/pcdone)-(sampled-updated)],
    with [pcdone] converted to a double at both places. *)
Definition extrapolate (updated since pcdone1 pcdone2 sampled : float) : float :=
  PrimFloat.sub
    (PrimFloat.div
       (PrimFloat.mul (PrimFloat.sub updated since)
                      (PrimFloat.sub 100 pcdone1))
       pcdone2)
    (PrimFloat.sub sampled updated).

(** [Threaded.sample] *)
Definition sample : M unit :=
  t <- time_time ;;
  assign (set_sampled (Some t)) ;;
  u <- getattr _updated "_updated" ;;
  assign (set_updated (Some u)) ;;
  s <- attr _steps ;;
  assign (set_steps (Some s)) ;;
  d <- attr _done ;;
  assign (set_done (Some d)) ;;
  s <- getattr steps "steps" ;;
  (if negb (s =? 0)
   then d <- getattr done "done" ;;
        assign (set_pcdone (Some (d * 100 / s)))
   else assign (set_pcdone (Some 0))) ;;
  pc <- getattr pcdone "pcdone" ;;
  (if negb (pc =? 0)
   then u <- getattr updated "updated" ;;
        b <- getattr since "since" ;;
        rest <- float_of_int pc ;;
        pcf <- float_of_int pc ;;
        s' <- getattr sampled "sampled" ;;
        assign (set_ttg (Some (extrapolate u b rest pcf s')))
   else assign (set_ttg (Some 60%float))) ;;
  g <- getattr ttg "ttg" ;;
  assign (set_eta (Some (PrimFloat.add g t))) ;;
  b <- getattr since "since" ;;
  assign (set_elapsed (Some (PrimFloat.sub t b))).

(** What [raise None] raises (Python 2). *)
Definition raise_None : exn :=
  TypeError "exceptions must be old-style classes or derived from BaseException, not NoneType".

(** [Threaded.wait] *)
Definition wait (timeout : option nat) : M value :=
  _ <- getattr _worker "_worker" ;;
  join timeout ;;
  c <- getattr _return "_return" ;;
  if c =? RETURN_VALUE then
    r <- getattr _result "_result" ;;
    assign (set__return (Some RETURN_NOTHING)) ;;
    assign (set__result (Some PyNone)) ;;
    ret r
  else
    c <- getattr _return "_return" ;;
    if c =? RETURN_EXCEPTION then
      i <- getattr _exc_info "_exc_info" ;;
      match i with
      | ExcInfo e => raise e
      | NoExcInfo => raise raise_None
      end
    else raise (Bug "Unrecognised return type").

(** [Threaded.__call__] *)
Definition __call__ (args : list value) : M value :=
  start args ;;
  wait None.

(** [Threaded.exc_info] *)
Definition get_exc_info : M exc_info := getattr _exc_info "_exc_info".

(** ** Example callables and worlds *)

(** A wall clock that advances by one second per reading. *)
Fixpoint wall (n : nat) : float :=
  match n with
  | O => 0%float
  | S m => PrimFloat.add (wall m) 1%float
  end.

Definition fresh (target : option (list value -> prog)) : world :=
  mkWorld (__init__ target None) wall 0.

(** [f(handle, n)]: [set_goal(n)], then [n] times [update(1)]. *)
Fixpoint updates (n : nat) (k : prog) : prog :=
  match n with
  | O => k
  | S m => Update 1 (updates m k)
  end.

Definition count_to (args : list value) : prog :=
  match args with
  | [PyInt n] => SetGoal (Some n) 0 (updates (Z.to_nat n) (Return PyNone))
  | _ => Raise (TypeError "count_to() takes exactly 2 arguments")
  end.

(** [f(handle)]: [set_goal(1)], then [raise ValueError("boom")]. *)
Definition boom (_ : list value) : prog :=
  SetGoal (Some 1) 0 (Raise (Failure "ValueError" "boom")).

(** [f(handle)]: returns at once, no goal declared. *)
Definition idle (_ : list value) : prog := Return PyNone.

(** [f(handle)]: calls [update(1)] before any goal is declared. *)
Definition hasty (_ : list value) : prog := Update 1 (Return PyNone).

(** ** Predicates on callables and states *)

(** The callable [p], run while the stop flag reads [stop], ends without
    calling [set_goal] and without asking for the lock. *)
Fixpoint ends_without_goal (stop : bool) (p : prog) : bool :=
  match p with
  | Return _ => true
  | Raise _ => true
  | SetGoal _ _ _ => false
  | Update _ _ => false
  | Stopping k => ends_without_goal stop (k stop)
  end.

(** The worker that [start args] spawns on [o] terminates without ever
    calling [set_goal]: there is no callable at all, or the callable
    ends first. *)
Definition worker_ends_without_goal (args : list value) (o : Threaded) : bool :=
  match _target o with
  | None => true
  | Some f => ends_without_goal (_stopping o) (f args)
  end.

(** The state in which [start] enters its waiting loop: flags set, the
    clock read once for [since], the worker thread spawned. *)
Definition spawned (args : list value) (w : world) : world :=
  mkWorld
    (set__worker (Some (Spawned args))
       (set_since (Some (clock w (ticks w)))
          (set__started false (set__running true (obj w)))))
    (clock w) (S (ticks w)).

(** What the worker's final bookkeeping would have touched is as it
    was, and the task is idle again with its worker gone. *)
Definition abandoned (w w' : world) : Prop :=
  _running (obj w') = false /\
  _started (obj w') = false /\
  worker_alive w' = false /\
  _updated (obj w') = _updated (obj w) /\
  _steps (obj w') = _steps (obj w) /\
  _done (obj w') = _done (obj w) /\
  _stopping (obj w') = _stopping (obj w) /\
  ticks w' = ticks w.

(** The callable [p], run while the stop flag reads [stop], calls
    [set_goal] before anything that needs the lock or ends it. *)
Fixpoint declares_goal (stop : bool) (p : prog) : bool :=
  match p with
  | SetGoal _ _ _ => true
  | Stopping k => declares_goal stop (k stop)
  | Return _ => false
  | Raise _ => false
  | Update _ _ => false
  end.

(** The failure with which the callable [p] ends, if it ends so. *)
Fixpoint failure_of (stop : bool) (p : prog) : option exn :=
  match p with
  | Return _ => None
  | Raise e => Some e
  | SetGoal _ _ k => failure_of stop k
  | Update _ k => failure_of stop k
  | Stopping k => failure_of stop (k stop)
  end.

(** [wait] after its [join]: the outcome slot consumed. *)
Definition consumed (o : Threaded) : Threaded :=
  set__result (Some PyNone) (set__return (Some RETURN_NOTHING) o).

(** ** Histories *)

(** What can happen to a Task between two observations: a method call
    from the calling thread, a call on the tracker, or the worker thread
    running for a while. *)
Inductive event :=
| CallStart (args : list value)
| CallStop
| CallSample
| CallWait (timeout : option nat)
| CallInvoke (args : list value)
| CallSetGoal (steps : option Z) (done : Z)
| CallUpdate (delta : Z)
| WorkerRuns (n : nat).

Definition perform (ev : event) (w : world) : world :=
  match ev with
  | CallStart args => snd (start args w)
  | CallStop => snd (stop w)
  | CallSample => snd (sample w)
  | CallWait timeout => snd (wait timeout w)
  | CallInvoke args => snd (__call__ args w)
  | CallSetGoal steps done => snd (set_goal steps done w)
  | CallUpdate delta => snd (update delta w)
  | WorkerRuns n => run_thread n w
  end.

Definition history (evs : list event) (w : world) : world :=
  fold_left (fun w ev => perform ev w) evs w.

(** A method keeps the property [Q] of the object, however it ends. *)
Definition keeps (Q : Threaded -> Prop) {A} (m : M A) : Prop :=
  forall w, Q (obj w) -> Q (obj (snd (m w))).

(** The state that [sample] reads and the rest of the private state:
    everything but the eight attributes that [sample] writes. *)
Definition private (o : Threaded) :=
  (_target o, name o, _stopping o, _started o, _running o, _steps o,
   _done o, since o, _updated o, _return o, _result o, _exc_info o,
   _worker o).

(** The stop request is pending. *)
Definition stop_requested (o : Threaded) : Prop := _stopping o = true.

(** [int(done*100/steps)] guarded by [if self.steps:]. *)
Definition percent (steps done : Z) : Z :=
  if negb (steps =? 0) then done * 100 / steps else 0.

(** The object after a [sample] that read the clock at [t] and found
    [_updated = u], [since = b], and estimated [g]. *)
Definition sampled_object (t u b g : float) (o : Threaded) : Threaded :=
  set_elapsed (Some (PrimFloat.sub t b))
    (set_eta (Some (PrimFloat.add g t))
       (set_ttg (Some g)
          (set_pcdone (Some (percent (_steps o) (_done o)))
             (set_done (Some (_done o))
                (set_steps (Some (_steps o))
                   (set_updated (Some u)
                      (set_sampled (Some t) o))))))).

(** The bounds the progress counter is meant to keep. *)
Definition in_bounds (o : Threaded) : Prop := 0 <= _done o <= _steps o.

(** A run of [update] calls. *)
Definition updates_run (deltas : list Z) (w : world) : world :=
  fold_left (fun w d => snd (update d w)) deltas w.

(** A run under way: [count_to(4)] started, three steps later. *)
Definition midway : world :=
  snd ((start [PyInt 4] ;; join (Some 3%nat)) (fresh (Some count_to))).

(** A finished run whose callable declared a goal of unknown size:
    [set_goal()] and nothing else. *)
Definition unsized : world :=
  snd ((start [] ;; join None)
         (fresh (Some (fun _ => SetGoal None 0 (Return PyNone))))).

(** ** More predicates on callables *)

(** The value with which the callable [p] ends, if it ends so. *)
Fixpoint result_of (stop : bool) (p : prog) : option value :=
  match p with
  | Return r => Some r
  | Raise _ => None
  | SetGoal _ _ k => result_of stop k
  | Update _ k => result_of stop k
  | Stopping k => result_of stop (k stop)
  end.

(** The callable [p] calls [update] before it has declared a goal. *)
Fixpoint updates_first (stop : bool) (p : prog) : bool :=
  match p with
  | Update _ _ => true
  | Stopping k => updates_first stop (k stop)
  | Return _ => false
  | Raise _ => false
  | SetGoal _ _ _ => false
  end.

(** ** The example driver, [thread_example.py] *)

Section Platform.

(** What the interpreter and the platform put up with: the longest list
    [range] builds and what it raises beyond that ([OverflowError] past
    a C long, [MemoryError] before), the longest interval [time.sleep]
    takes and what it raises beyond that ([OverflowError] past the
    largest double, [IOError] before). *)
Variable range_max : Z.
Variable range_refused : Z -> exn.
Variable sleep_max : Z.
Variable sleep_refused : Z -> exn.

(** [time.sleep(interval)]: changes nothing on the Task; a negative
    interval and one that is too long are refused. *)
Definition sleep (interval : Z) (k : prog) : prog :=
  if interval <? 0
  then Raise (Failure "IOError" "[Errno 22] Invalid argument")
  else if sleep_max <? interval
  then Raise (sleep_refused interval)
  else k.

(** The [for i in range(0, count)] loop of [do_work], over a list of
    [n] items. *)
Fixpoint work_loop (interval : Z) (n : nat) : prog :=
  match n with
  | O => Return PyNone
  | S m =>
      Stopping (fun stop =>
        if stop then Return PyNone
        else sleep interval (Update 1 (work_loop interval m)))
  end.

(** [do_work(pt, interval, count)].  [range(0, count)] is evaluated
    once, after [set_goal] and before the first poll; it is empty for
    a negative [count]. *)
Definition do_work (args : list value) : prog :=
  match args with
  | [PyInt interval; PyInt count] =>
      SetGoal (Some count) 0
        (if range_max <? count
         then Raise (range_refused count)
         else work_loop interval (Z.to_nat count))
  | _ => Raise (TypeError "do_work() takes exactly 3 arguments")
  end.

End Platform.

(** [do_work] on a platform with 32-bit lists and sleeps. *)
Definition do_work_32 : list value -> prog :=
  do_work 2147483647
          (fun _ => OverflowError "range() result has too many items")
          2147483647
          (fun _ => Failure "IOError" "[Errno 22] Invalid argument").

(** The idle Task after a run: nothing running, nothing started, the
    worker gone without an uncaught exception. *)
Definition at_rest (o : Threaded) : Prop :=
  _running o = false /\ _started o = false /\
  _worker o = Some (Terminated None).

(** The first [set_goal] call of the callable [p], with what follows
    it, when [p] gets there before anything else happens. *)
Fixpoint first_goal (stop : bool) (p : prog) : option (option Z * Z * prog) :=
  match p with
  | SetGoal s d k => Some (s, d, k)
  | Stopping k => first_goal stop (k stop)
  | Return _ => None
  | Raise _ => None
  | Update _ _ => None
  end.

(** The state in which the worker enters the callable: [run] has reset
    the outcome slot. *)
Definition entered (args : list value) (w : world) : world :=
  on_obj (fun o => set__exc_info (Some NoExcInfo)
                     (set__result (Some PyNone)
                        (set__return (Some RETURN_NOTHING) o)))
         (spawned args w).

(** The state in which [start] returns: the callable has just called
    [set_goal(s, d)] and goes on with [k]. *)
Definition goal_declared (args : list value) (s : option Z) (d : Z)
    (k : prog) (w : world) : world :=
  set_thread (InTarget k) (snd (set_goal s d (entered args w))).

(** The sum of the deltas of a run of updates. *)
Definition total (deltas : list Z) : Z := fold_right Z.add 0 deltas.

(** The last steps of [_run_stop] after a goal was declared, the
    [with self._lock] block. *)
Definition bookkeeping : M unit :=
  update 0 ;;
  assign (set__started false) ;;
  assign (set__running false).

(** A Task marked running whose worker is gone. *)
Definition stuck (o : Threaded) : Prop :=
  _running o = true /\ exists e, _worker o = Some (Terminated e).

(** ** The outcome slot during a run *)





(** ** The snapshot *)

(** The eight attributes that [sample] writes. *)
Definition public (o : Threaded) :=
  (sampled o, updated o, steps o, done o, pcdone o, ttg o, eta o,
   elapsed o).

(** The time to go that [sample] stores, for a percentage [pc] found at
    time [t] with [_updated = u] and [since = b]. *)
Definition estimate (u b t : float) (pc : Z) : float :=
  if pc =? 0 then 60%float
  else extrapolate u b (to_double pc) (to_double pc) t.

(** Anything but a call of [sample]. *)
Definition not_sample (ev : event) : bool :=
  match ev with
  | CallSample => false
  | _ => true
  end.


(** * Properties *)

(** ** Reading the record *)

Ltac open_world w :=
  let o := fresh "o" in
  destruct w as [o ? ?]; destruct o; cbn in *.

Lemma await_started_unfold : forall fuel w,
  await_started fuel w =
  if _started (obj w) then (Returned tt, w)
  else if negb (worker_alive w)
  then (assign (set__running false) ;; raise ActionFailedError) w
  else
    match fuel with
    | O => (Blocked, w)
    | S n =>
        match thread_step true w with
        | Some w' => await_started n w'
        | None => (Blocked, w)
        end
    end.
Proof. intros [|n] w; reflexivity. Qed.

(** ** The step bound *)


Lemma thread_step_budget : forall l w w',
  thread_step l w = Some w' -> (budget w' < budget w)%nat.
Proof.
  intros l w w' H. open_world w.
  destruct _worker0 as [[args|p|r1|e1| |u]|]; cbn in H; try discriminate.
  - destruct _target0 as [f|]; cbn in H; inversion H; subst; cbn; lia.
  - destruct p as [r|e|s d k|d k|k]; cbn in H.
    + inversion H; subst; cbn; lia.
    + inversion H; subst; cbn; lia.
    + destruct s; cbn in H; inversion H; subst; cbn; lia.
    + destruct l; cbn in H; inversion H; subst; cbn; lia.
    + inversion H; subst; cbn.
      destruct _stopping0; lia.
  - inversion H; subst; cbn; lia.
  - inversion H; subst; cbn; lia.
  - destruct _started0; cbn in H.
    + destruct l; cbn in H; inversion H; subst; cbn; lia.
    + inversion H; subst; cbn; lia.
Qed.

Lemma budget_zero_dead : forall w, budget w = 0%nat -> worker_alive w = false.
Proof.
  intros w H. open_world w.
  destruct _worker0 as [[args|p|r1|e1| |u]|]; cbn in *; try reflexivity.
  - destruct _target0; discriminate.
  - discriminate.
  - discriminate.
  - discriminate.
  - discriminate.
Qed.

Lemma free_thread_steps : forall w,
  thread_step false w = None -> worker_alive w = false.
Proof.
  intros w H. open_world w.
  destruct _worker0 as [[args|p|r1|e1| |u]|]; cbn in *; try reflexivity.
  - destruct _target0; discriminate.
  - destruct p as [r|e|[s|] d k|d k|k]; discriminate.
  - discriminate.
  - discriminate.
  - destruct _started0; discriminate.
Qed.

(** More fuel than the bound changes nothing: [join] without a timeout
    and the handshake of [start] never stop for lack of fuel. *)
Lemma run_thread_fuel : forall n m w,
  (budget w <= n)%nat -> (budget w <= m)%nat ->
  run_thread n w = run_thread m w.
Proof.
  induction n as [|n IH]; intros m w Hn Hm.
  - assert (thread_step false w = None) as Hs.
    { destruct (thread_step false w) as [w'|] eqn:E; [|reflexivity].
      apply thread_step_budget in E. lia. }
    destruct m; cbn; [reflexivity | now rewrite Hs].
  - destruct m as [|m]; cbn.
    + destruct (thread_step false w) as [w'|] eqn:E; [|reflexivity].
      apply thread_step_budget in E. lia.
    + destruct (thread_step false w) as [w'|] eqn:E; [|reflexivity].
      pose proof (thread_step_budget _ _ _ E). apply IH; lia.
Qed.

Lemma run_thread_ends : forall n w,
  (budget w <= n)%nat -> worker_alive (run_thread n w) = false.
Proof.
  induction n as [|n IH]; intros w Hn.
  - cbn. apply budget_zero_dead. lia.
  - cbn. destruct (thread_step false w) as [w'|] eqn:E.
    + pose proof (thread_step_budget _ _ _ E). apply IH. lia.
    + now apply free_thread_steps.
Qed.

(** [join()] returns with the worker thread terminated. *)
Lemma join_ends : forall w w',
  join None w = (Returned tt, w') -> worker_alive w' = false.
Proof.
  intros w w' H. inversion H. apply run_thread_ends. lia.
Qed.

Lemma await_started_fuel : forall n m w,
  (budget w <= n)%nat -> (budget w <= m)%nat ->
  await_started n w = await_started m w.
Proof.
  induction n as [|n IH]; intros m w Hn Hm;
    rewrite (await_started_unfold _ w), (await_started_unfold m w).
  - destruct (_started (obj w)); [reflexivity|].
    rewrite (budget_zero_dead w) by lia. reflexivity.
  - destruct (_started (obj w)); [reflexivity|].
    destruct (negb (worker_alive w)) eqn:A; [reflexivity|].
    destruct m as [|m].
    + rewrite (budget_zero_dead w) in A by lia. discriminate.
    + destruct (thread_step true w) as [w'|] eqn:E; [|reflexivity].
      pose proof (thread_step_budget _ _ _ E). apply IH; lia.
Qed.

(** When [start] never returns, the worker is alive, has not declared
    its goal and waits for the lock that [start] holds. *)
Lemma await_started_blocked : forall n w w',
  (budget w <= n)%nat ->
  await_started n w = (Blocked, w') ->
  _started (obj w') = false /\ worker_alive w' = true /\
  thread_step true w' = None.
Proof.
  induction n as [|n IH]; intros w w' Hn; rewrite await_started_unfold.
  - destruct (_started (obj w)); [discriminate|].
    rewrite (budget_zero_dead w) by lia. discriminate.
  - destruct (_started (obj w)) eqn:S; [discriminate|].
    destruct (worker_alive w) eqn:A; cbn [negb]; [|discriminate].
    destruct (thread_step true w) as [w1|] eqn:E.
    + pose proof (thread_step_budget _ _ _ E). apply IH. lia.
    + intros H. inversion H; subst. auto.
Qed.

(** ** [start] *)

Lemma start_idle : forall args w,
  _running (obj w) = false ->
  start args w = await_started (budget (spawned args w)) (spawned args w).
Proof.
  intros args w H. unfold start, bind, attr. rewrite H. reflexivity.
Qed.

Lemma start_while_running_eq : forall args w,
  _running (obj w) = true ->
  start args w = (Raised AlreadyStartedError, w).
Proof.
  intros args w H. unfold start, bind, attr. rewrite H. reflexivity.
Qed.

(** While [start] holds the lock the worker cannot clear [_running]. *)
Lemma locked_step_running : forall w w',
  thread_step true w = Some w' -> _running (obj w') = _running (obj w).
Proof.
  intros w w' H. open_world w.
  destruct _worker0 as [[args|p|r1|e1| |u]|]; cbn in H; try discriminate.
  - destruct _target0; cbn in H; inversion H; reflexivity.
  - destruct p as [r|e|[s|] d k|d k|k]; cbn in H;
      try discriminate; inversion H; reflexivity.
  - inversion H; reflexivity.
  - inversion H; reflexivity.
  - destruct _started0; cbn in H; try discriminate; inversion H; reflexivity.
Qed.

Lemma await_started_ok : forall n w w',
  await_started n w = (Returned tt, w') ->
  _started (obj w') = true /\ _running (obj w') = _running (obj w).
Proof.
  induction n as [|n IH]; intros w w'; rewrite await_started_unfold;
    destruct (_started (obj w)) eqn:S.
  - intros H; inversion H; subst; auto.
  - destruct (negb (worker_alive w)); discriminate.
  - intros H; inversion H; subst; auto.
  - destruct (negb (worker_alive w)); [discriminate|].
    destruct (thread_step true w) as [w1|] eqn:E; [|discriminate].
    intros H. apply IH in H. rewrite (locked_step_running _ _ E) in H.
    exact H.
Qed.

(** A [start] that returns leaves the task running, goal declared. *)
Lemma start_ok : forall args w w',
  start args w = (Returned tt, w') ->
  _running (obj w') = true /\ _started (obj w') = true.
Proof.
  intros args w w' H.
  destruct (_running (obj w)) eqn:R.
  - rewrite start_while_running_eq in H by exact R. discriminate.
  - rewrite start_idle in H by assumption.
    apply await_started_ok in H. destruct H as [H1 H2]. split; [|exact H1].
    rewrite H2. destruct w as [o c n]; reflexivity.
Qed.

(** C3: on a Task with an active run ([_running] true) a second [start]
    raises [AlreadyStartedError] and leaves the whole state -- counters,
    signals, timestamps, outcome slot, worker -- exactly as it was. *)
Theorem start_while_running : forall args w,
  _running (obj w) = true ->
  start args w = (Raised AlreadyStartedError, w).
Proof. intros args w H. now apply start_while_running_eq. Qed.

Lemma start_while_running_witness :
  let w := snd (start [PyInt 5] (fresh (Some count_to))) in
  _running (obj w) = true /\
  start [PyInt 3] w = (Raised AlreadyStartedError, w).
Proof.
  split; [reflexivity | apply start_while_running; reflexivity].
Defined.

Lemma spawned_enters : forall args w f,
  _target (obj w) = Some f ->
  thread_step true (spawned args w) =
  Some (set_thread (InTarget (f args))
          (on_obj (fun o => set__exc_info (Some NoExcInfo)
                     (set__result (Some PyNone)
                        (set__return (Some RETURN_NOTHING) o)))
                  (spawned args w))) /\
  budget (spawned args w) = S (S (prog_depth (f args))).
Proof.
  intros args w f T. destruct w as [o c t]; destruct o; cbn in T.
  subst. split; vm_compute; reflexivity.
Qed.

Lemma abandoned_thread : forall t w w',
  abandoned (set_thread t w) w' -> abandoned w w'.
Proof. intros t w w' H. destruct w as [o c n]. exact H. Qed.

Lemma await_target_no_goal : forall p n w,
  _worker (obj w) = Some (InTarget p) ->
  _started (obj w) = false ->
  ends_without_goal (_stopping (obj w)) p = true ->
  (1 + prog_depth p <= n)%nat ->
  exists w',
    await_started n w = (Raised ActionFailedError, w') /\ abandoned w w'.
Proof.
  induction p as [r|e|s d k IH|d k IH|k IH]; intros n w Hw Hs Hg Hn;
    cbn in Hg; try discriminate.
  - (* the callable returns: the value is stored, bookkeeping skipped *)
    destruct n as [|[|[|n]]]; cbn in Hn; try lia.
    open_world w. subst. unfold abandoned, worker_alive.
    destruct n; vm_compute; (eexists; split; [reflexivity|repeat split]).
  - (* the callable raises: the handler dies on [sys] *)
    destruct n as [|[|n]]; cbn in Hn; try lia.
    open_world w. subst. unfold abandoned, worker_alive.
    destruct n; vm_compute; (eexists; split; [reflexivity|repeat split]).
  - (* the callable polls the stop flag *)
    destruct n as [|n]; cbn in Hn; try lia.
    rewrite await_started_unfold, Hs.
    unfold worker_alive at 1. rewrite Hw. cbn [is_alive negb].
    unfold thread_step. rewrite Hw. cbn [settle stopping attr].
    destruct (IH (_stopping (obj w)) n
                 (set_thread (InTarget (k (_stopping (obj w)))) w))
      as [w' [E A]].
    + destruct w as [o c t]; reflexivity.
    + destruct w as [o c t]; exact Hs.
    + destruct w as [o c t]; exact Hg.
    + destruct (_stopping (obj w)); lia.
    + exists w'. split; [exact E|]. eapply abandoned_thread; exact A.
Qed.

(** C2: when the worker that [start] spawns terminates without ever
    calling [set_goal] (no callable bound, or a callable that returns or
    raises first), [start] raises [ActionFailedError] and leaves the Task
    not running; the worker's final bookkeeping is skipped: no forced
    update (the clock was read once, for [since]; [_updated], [_done],
    [_steps] are as before). *)
Theorem start_without_goal : forall args w,
  _running (obj w) = false ->
  worker_ends_without_goal args (obj w) = true ->
  exists w',
    start args w = (Raised ActionFailedError, w') /\
    _running (obj w') = false /\
    _started (obj w') = false /\
    worker_alive w' = false /\
    _updated (obj w') = _updated (obj w) /\
    _steps (obj w') = _steps (obj w) /\
    _done (obj w') = _done (obj w) /\
    ticks w' = S (ticks w).
Proof.
  intros args w R G. rewrite start_idle by exact R.
  unfold worker_ends_without_goal in G.
  destruct (_target (obj w)) as [f|] eqn:T.
  - (* one step takes the worker into the callable *)
    destruct (spawned_enters args w f T) as [E B].
    rewrite B, await_started_unfold.
    replace (_started (obj (spawned args w))) with false
      by (destruct w as [o c t]; reflexivity).
    replace (worker_alive (spawned args w)) with true
      by (destruct w as [o c t]; reflexivity).
    cbn [negb]. rewrite E.
    edestruct (await_target_no_goal (f args) (S (prog_depth (f args))))
      as [w' [E' A]]; [| | | | exists w'; split; [exact E'|]].
    + destruct w as [o c t]; reflexivity.
    + destruct w as [o c t]; reflexivity.
    + destruct w as [o c t]; exact G.
    + lia.
    + destruct A as (A1 & A2 & A3 & A4 & A5 & A6 & A7 & A8).
      destruct w as [o c t]. repeat split; assumption.
  - (* no callable: the worker dies on [NothingToDoBug] *)
    exists (on_obj (fun o => set__running false
                      (set__worker
                         (Some (dies (NameError "NothingToDoBug"))) o))
                   (spawned args w)).
    split; [|destruct w as [o c t]; repeat split].
    destruct w as [o c t]; destruct o; cbn in T; subst.
    vm_compute. reflexivity.
Qed.

Lemma start_without_goal_witness :
  exists w',
    start [] (fresh (Some idle)) = (Raised ActionFailedError, w') /\
    _running (obj w') = false /\
    _started (obj w') = false /\
    worker_alive w' = false /\
    _updated (obj w') = _updated (obj (fresh (Some idle))) /\
    _steps (obj w') = _steps (obj (fresh (Some idle))) /\
    _done (obj w') = _done (obj (fresh (Some idle))) /\
    ticks w' = S (ticks (fresh (Some idle))).
Proof.
  apply (start_without_goal [] (fresh (Some idle))); reflexivity.
Defined.

(** ** [wait] *)

Lemma join_run_thread : forall t w,
  join t w =
  (Returned tt,
   run_thread (match t with None => budget w | Some n => n end) w).
Proof. intros [n|] w; reflexivity. Qed.

Lemma wait_value : forall t w w1 th r,
  _worker (obj w) = Some th ->
  join t w = (Returned tt, w1) ->
  _return (obj w1) = Some RETURN_VALUE ->
  _result (obj w1) = Some r ->
  wait t w = (Returned r, on_obj consumed w1).
Proof.
  intros t w w1 th r Hw Hj Hc Hr.
  unfold wait, bind, getattr. rewrite Hw, Hj, Hc. cbn. rewrite Hr.
  reflexivity.
Qed.

Lemma wait_exception : forall t w w1 th i,
  _worker (obj w) = Some th ->
  join t w = (Returned tt, w1) ->
  _return (obj w1) = Some RETURN_EXCEPTION ->
  _exc_info (obj w1) = Some i ->
  wait t w =
  (Raised match i with ExcInfo e => e | NoExcInfo => raise_None end, w1).
Proof.
  intros t w w1 th i Hw Hj Hc Hi.
  unfold wait, bind, getattr. rewrite Hw, Hj, Hc. cbn. rewrite Hc. cbn.
  rewrite Hi. destruct i; reflexivity.
Qed.


(** ** A callable that declares its goal and then fails *)

Lemma await_target_goal : forall p n w,
  _worker (obj w) = Some (InTarget p) ->
  _started (obj w) = false ->
  declares_goal (_stopping (obj w)) p = true ->
  (1 + prog_depth p <= n)%nat ->
  exists w' k,
    await_started n w = (Returned tt, w') /\
    _worker (obj w') = Some (InTarget k) /\
    failure_of (_stopping (obj w)) k = failure_of (_stopping (obj w)) p /\
    (prog_depth k < prog_depth p)%nat /\
    _stopping (obj w') = _stopping (obj w) /\
    _running (obj w') = _running (obj w) /\
    _return (obj w') = _return (obj w) /\
    _exc_info (obj w') = _exc_info (obj w).
Proof.
  induction p as [r|e|s d k IH|d k IH|k IH]; intros n w Hw Hs Hg Hn;
    cbn in Hg; try discriminate.
  - destruct n as [|n]; cbn in Hn; try lia.
    open_world w. subst.
    destruct s as [s|]; cbn; (destruct n; cbn);
      eexists; exists k; repeat split; lia.
  - destruct n as [|n]; cbn in Hn; try lia.
    rewrite await_started_unfold, Hs.
    unfold worker_alive at 1. rewrite Hw. cbn [is_alive negb].
    unfold thread_step. rewrite Hw. cbn [settle stopping attr].
    destruct (IH (_stopping (obj w)) n
                 (set_thread (InTarget (k (_stopping (obj w)))) w))
      as (w' & k' & E & A).
    + destruct w as [o c t]; reflexivity.
    + destruct w as [o c t]; exact Hs.
    + destruct w as [o c t]; exact Hg.
    + destruct (_stopping (obj w)); lia.
    + exists w', k'. split; [exact E|].
      destruct w as [o c t]; cbn in *.
      destruct A as (A1 & A2 & A3 & A4 & A5 & A6 & A7).
      repeat split; try assumption.
      destruct (_stopping o); lia.
Qed.

Lemma run_thread_failure : forall p n w e,
  _worker (obj w) = Some (InTarget p) ->
  failure_of (_stopping (obj w)) p = Some e ->
  (prog_depth p <= n)%nat ->
  _return (obj (run_thread n w)) = Some RETURN_EXCEPTION /\
  _worker (obj (run_thread n w)) = Some (Terminated (Some (NameError "sys"))) /\
  _exc_info (obj (run_thread n w)) = _exc_info (obj w) /\
  _running (obj (run_thread n w)) = _running (obj w).
Proof.
  induction p as [r|e0|s d k IH|d k IH|k IH]; intros n w e Hw Hf Hn;
    cbn in Hf; try discriminate;
    (destruct n as [|n]; cbn in Hn; [lia|]).
  - destruct n as [|n]; [lia|].
    open_world w. subst. destruct n; cbn; auto.
  - open_world w. subst.
    destruct s as [s|]; cbn;
      match goal with
      | |- context [run_thread n ?w1] =>
          destruct (IH n w1 e eq_refl Hf ltac:(lia)) as (A & B & C & D)
      end; cbn in *; auto.
  - open_world w. subst. cbn.
    match goal with
    | |- context [run_thread n ?w1] =>
        destruct (IH n w1 e eq_refl Hf ltac:(lia)) as (A & B & C & D)
    end; cbn in *; auto.
  - open_world w. subst. cbn.
    match goal with
    | |- context [run_thread n ?w1] =>
        destruct (IH _stopping0 n w1 e eq_refl Hf
                    ltac:(destruct _stopping0; lia)) as (A & B & C & D)
    end; cbn in *; auto.
Qed.

(** C1 (the code fails it): a callable that declares its goal and then
    raises [e] does not get [e] re-raised.  The [except:] clause of [run]
    records [RETURN_EXCEPTION] and then evaluates [sys.exc_info()] in a
    module that never imports [sys]: the worker dies of [NameError],
    [_exc_info] keeps [(None, None, None)], and [wait] -- hence the
    synchronous call -- executes [raise None], a [TypeError].  The final
    bookkeeping is lost with the worker, so the Task stays running. *)
Theorem call_failure_lost : forall args w f e,
  _running (obj w) = false ->
  _target (obj w) = Some f ->
  declares_goal (_stopping (obj w)) (f args) = true ->
  failure_of (_stopping (obj w)) (f args) = Some e ->
  exists w',
    __call__ args w = (Raised raise_None, w') /\
    _exc_info (obj w') = Some NoExcInfo /\
    _worker (obj w') = Some (Terminated (Some (NameError "sys"))) /\
    _running (obj w') = true.
Proof.
  intros args w f e R T G F.
  unfold __call__, bind. rewrite start_idle by exact R.
  destruct (spawned_enters args w f T) as [E B].
  rewrite B, await_started_unfold.
  replace (_started (obj (spawned args w))) with false
    by (destruct w as [o c t]; reflexivity).
  replace (worker_alive (spawned args w)) with true
    by (destruct w as [o c t]; reflexivity).
  cbn [negb]. rewrite E.
  edestruct (await_target_goal (f args) (S (prog_depth (f args))))
    as (w1 & k & E1 & W1 & F1 & D1 & S1 & R1 & C1 & I1);
    [| | | | rewrite E1].
  - destruct w as [o c t]; reflexivity.
  - destruct w as [o c t]; reflexivity.
  - destruct w as [o c t]; exact G.
  - lia.
  - assert (failure_of (_stopping (obj w1)) k = Some e) as F2.
    { rewrite S1, F1. destruct w as [o c t]; exact F. }
    destruct (run_thread_failure k (budget w1) w1 e W1 F2) as (A1 & A2 & A3 & A4).
    { unfold budget. rewrite W1. lia. }
    exists (run_thread (budget w1) w1).
    rewrite (wait_exception None w1 (run_thread (budget w1) w1)
               (InTarget k) NoExcInfo W1 (join_run_thread None w1) A1).
    + repeat split; try assumption.
      * rewrite A3, I1. destruct w as [o c t]; reflexivity.
      * rewrite A4, R1. destruct w as [o c t]; reflexivity.
    + rewrite A3, I1. destruct w as [o c t]; reflexivity.
Qed.

Lemma call_failure_lost_witness :
  exists w',
    __call__ [] (fresh (Some boom)) = (Raised raise_None, w') /\
    _exc_info (obj w') = Some NoExcInfo /\
    _worker (obj w') = Some (Terminated (Some (NameError "sys"))) /\
    _running (obj w') = true.
Proof.
  apply (call_failure_lost [] (fresh (Some boom)) boom
           (Failure "ValueError" "boom")); reflexivity.
Defined.

(** The spec's scenario 3: [ValueError("boom")] after [set_goal(1)].
    The caller sees a [TypeError], and the Task cannot be started
    again. *)
Lemma boom_not_reraised :
  fst (__call__ [] (fresh (Some boom))) = Raised raise_None /\
  fst (__call__ [] (fresh (Some boom))) <>
    Raised (Failure "ValueError" "boom") /\
  fst (start [] (snd (__call__ [] (fresh (Some boom))))) =
    Raised AlreadyStartedError.
Proof. repeat split; [discriminate]. Qed.

(** ** The outcome slot *)

Lemma dead_thread_stays : forall n w th,
  _worker (obj w) = Some th -> is_alive th = false ->
  run_thread n w = w.
Proof.
  intros n w th Hw Ha. destruct th; try discriminate.
  destruct n; cbn; [reflexivity|].
  unfold thread_step. rewrite Hw. reflexivity.
Qed.

Lemma join_dead : forall t w th,
  _worker (obj w) = Some th -> is_alive th = false ->
  join t w = (Returned tt, w).
Proof.
  intros t w th Hw Ha. rewrite join_run_thread.
  now rewrite (dead_thread_stays _ w th).
Qed.


(** ** Properties kept by every piece of a method *)

Section Keeps.
Variable Q : Threaded -> Prop.

Lemma keeps_ret : forall A (a : A), keeps Q (ret a).
Proof. intros A a w H; exact H. Qed.

Lemma keeps_raise : forall A e, keeps Q (@raise A e).
Proof. intros A e w H; exact H. Qed.

Lemma keeps_bind : forall A B (m : M A) (k : A -> M B),
  keeps Q m -> (forall a, keeps Q (k a)) -> keeps Q (bind m k).
Proof.
  intros A B m k Hm Hk w H. unfold bind.
  specialize (Hm w H). destruct (m w) as [[a|e|] w1]; cbn in *;
    [apply Hk|..]; exact Hm.
Qed.

Lemma keeps_assign : forall f,
  (forall o, Q o -> Q (f o)) -> keeps Q (assign f).
Proof. intros f Hf w H. apply Hf, H. Qed.

Lemma keeps_attr : forall A (proj : Threaded -> A), keeps Q (attr proj).
Proof. intros A proj w H; exact H. Qed.

Lemma keeps_getattr : forall A (proj : Threaded -> option A) x,
  keeps Q (getattr proj x).
Proof.
  intros A proj x w H. unfold getattr. destruct (proj (obj w)); exact H.
Qed.

Lemma keeps_time_time : keeps Q time_time.
Proof. intros w H; exact H. Qed.

Lemma keeps_global : forall n, keeps Q (global n).
Proof.
  intros n w H. unfold global. destruct (global_defined n); exact H.
Qed.

Lemma keeps_float_of_int : forall z, keeps Q (float_of_int z).
Proof.
  intros z w H. unfold float_of_int.
  destruct (is_infinity _); exact H.
Qed.

Lemma keeps_acquire : forall l, keeps Q (acquire l).
Proof. intros l w H. unfold acquire. destruct l; exact H. Qed.

(** The worker thread, when its position does not matter to [Q]. *)
Hypothesis Q_thread : forall t o, Q o -> Q (set__worker t o).

Lemma keeps_settle :
  forall A (next : A -> thread) handler (m : M A) w w',
    keeps Q m -> settle next handler (m w) = Some w' ->
    Q (obj w) -> Q (obj w').
Proof.
  intros A next handler m w w' Hm H Hq. specialize (Hm w Hq).
  destruct (m w) as [[a|e|] w1]; cbn in *; try discriminate;
    inversion H; subst; destruct w1 as [o1 c1 t1]; apply Q_thread, Hm.
Qed.

Lemma keeps_join : forall t,
  (forall l w w', thread_step l w = Some w' -> Q (obj w) -> Q (obj w')) ->
  keeps Q (join t).
Proof.
  intros t Hs w H. rewrite join_run_thread. cbn.
  generalize (match t with None => budget w | Some n => n end).
  intros n. revert w H.
  induction n as [|n IH]; intros w H; cbn; [exact H|].
  destruct (thread_step false w) as [w'|] eqn:E; [|exact H].
  apply IH. eapply Hs; eassumption.
Qed.

Lemma keeps_await_started : forall n,
  (forall l w w', thread_step l w = Some w' -> Q (obj w) -> Q (obj w')) ->
  (forall o, Q o -> Q (set__running false o)) ->
  keeps Q (await_started n).
Proof.
  intros n Hs Hr. induction n as [|n IH]; intros w H;
    rewrite await_started_unfold;
    destruct (_started (obj w)); try exact H;
    (destruct (negb (worker_alive w));
     [destruct w as [o c t]; apply Hr, H|]); try exact H.
  destruct (thread_step true w) as [w'|] eqn:E; [|exact H].
  apply IH. eapply Hs; eassumption.
Qed.
End Keeps.

Ltac keeps_step :=
  first
    [ apply keeps_ret | apply keeps_raise | apply keeps_attr
    | apply keeps_getattr | apply keeps_time_time | apply keeps_global
    | apply keeps_float_of_int | apply keeps_acquire
    | apply keeps_bind; [|intros]
    | match goal with
      | |- keeps _ (if ?c then _ else _) => destruct c
      | |- keeps _ (match ?x with _ => _ end) => destruct x
      end ].

(** ** The stop request *)

Ltac keeps_stop :=
  repeat first
    [ keeps_step
    | apply keeps_assign; let H := fresh in intros ? H; exact H ].

Lemma set_goal_keeps_stop : forall s d, keeps stop_requested (set_goal s d).
Proof. intros s d. unfold set_goal. keeps_stop. Qed.

Lemma update_keeps_stop : forall d, keeps stop_requested (update d).
Proof. intros d. unfold update. keeps_stop. Qed.

Lemma thread_step_keeps_stop : forall l w w',
  thread_step l w = Some w' ->
  stop_requested (obj w) -> stop_requested (obj w').
Proof.
  intros l w w' H Hq. unfold thread_step in H.
  destruct (_worker (obj w)) as [[args|p|r1|e1| |u]|]; try discriminate;
    [|destruct p as [r|e|s d k|d k|k]| | |];
    (eapply (keeps_settle stop_requested);
     [intros ? ? Hq'; exact Hq'| |exact H|exact Hq]).
  - unfold run_enter. keeps_stop.
  - unfold run_returned_kind. keeps_stop.
  - unfold run_except_kind. keeps_stop.
  - apply set_goal_keeps_stop.
  - apply keeps_bind; [keeps_stop|intros; apply update_keeps_stop].
  - unfold stopping. keeps_stop.
  - unfold run_returned_value. keeps_stop.
  - unfold run_except_info. keeps_stop.
  - unfold _run_stop_tail. keeps_stop.
Qed.

Lemma start_keeps_stop : forall args, keeps stop_requested (start args).
Proof.
  intros args. unfold start. keeps_stop.
  intros w H.
  apply keeps_await_started;
    [apply thread_step_keeps_stop | intros ? Hq; exact Hq | exact H].
Qed.

Lemma sample_keeps_stop : keeps stop_requested sample.
Proof. unfold sample. keeps_stop. Qed.

Lemma wait_keeps_stop : forall t, keeps stop_requested (wait t).
Proof.
  intros t. unfold wait.
  apply keeps_bind; [keeps_stop|intros].
  apply keeps_bind; [|intros; keeps_stop].
  apply keeps_join, thread_step_keeps_stop.
Qed.

Lemma perform_keeps_stop : forall ev w,
  stop_requested (obj w) -> stop_requested (obj (perform ev w)).
Proof.
  intros [args| | |t|args|s d|d|n] w H; cbn [perform].
  - now apply start_keeps_stop.
  - reflexivity.
  - now apply sample_keeps_stop.
  - now apply wait_keeps_stop.
  - revert w H. unfold __call__. apply keeps_bind.
    + apply start_keeps_stop.
    + intros; apply wait_keeps_stop.
  - now apply set_goal_keeps_stop.
  - now apply update_keeps_stop.
  - apply (keeps_join stop_requested (Some n));
      [apply thread_step_keeps_stop | exact H].
Qed.

(** C10: once [stop()] has been called, [stopping()] returns true after
    any further history of the Task -- calls of [start], [set_goal],
    [update], [sample], [wait], the synchronous call, more [stop]s, and
    the worker running in between: nothing clears the stop request, in
    this run or in a later one. *)
Theorem stop_is_permanent : forall evs w,
  fst (stopping (history evs (snd (stop w)))) = Returned true.
Proof.
  intros evs w.
  assert (stop_requested (obj (snd (stop w)))) as H by reflexivity.
  revert H. generalize (snd (stop w)). clear w.
  induction evs as [|ev evs IH]; intros w H; cbn.
  - unfold stopping, attr. cbn. now rewrite H.
  - apply IH. now apply perform_keeps_stop.
Qed.

(** ** [sample] *)

(** What a [sample] that returns has done.  The arithmetic is kept
    symbolic while the attribute reads and writes are computed. *)
Lemma sample_returns : forall w w',
  sample w = (Returned tt, w') ->
  exists u b g,
    _updated (obj w) = Some u /\
    since (obj w) = Some b /\
    w' = mkWorld (sampled_object (clock w (ticks w)) u b g (obj w))
                 (clock w) (S (ticks w)) /\
    (percent (_steps (obj w)) (_done (obj w)) = 0 -> g = 60%float) /\
    (percent (_steps (obj w)) (_done (obj w)) <> 0 ->
     exists f,
       float_of_int (percent (_steps (obj w)) (_done (obj w))) w =
         (Returned f, w) /\
       g = extrapolate u b f f (clock w (ticks w))).
Proof.
  intros w w'. destruct w as [o c t]; destruct o.
  unfold sample, sampled_object, percent, float_of_int, extrapolate.
  remember Z.eqb as eqb' eqn:Heqb.
  remember Z.div as div' eqn:Hdiv.
  remember Z.mul as mul' eqn:Hmul.
  remember to_double as dbl eqn:Hdbl.
  remember PrimFloat.sub as fsub eqn:Hsub.
  remember PrimFloat.add as fadd eqn:Hadd.
  remember PrimFloat.mul as fmul eqn:Hfmul.
  remember PrimFloat.div as fdiv eqn:Hfdiv.
  remember is_infinity as isinf eqn:Hinf.
  vm_compute.
  destruct _updated0 as [u|]; [|discriminate].
  destruct (eqb' _steps0 0) eqn:E; vm_compute.
  - assert (eqb' 0 0 = true) as Z0 by (subst eqb'; reflexivity).
    rewrite Z0.
    destruct since0 as [b|]; [|discriminate].
    intros H; injection H as <-. exists u, b, 60%float.
    repeat split; congruence.
  - destruct (eqb' (div' (mul' _done0 100) _steps0) 0) eqn:P.
    + destruct since0 as [b|]; [|discriminate].
      intros H; injection H as <-. exists u, b, 60%float.
      repeat split; try congruence.
      intros N. exfalso. apply N. subst eqb'. now apply Z.eqb_eq in P.
    + destruct since0 as [b|]; [|discriminate].
      destruct (isinf (dbl (div' (mul' _done0 100) _steps0))) eqn:I;
        [discriminate|].
      intros H; injection H as <-.
      eexists u, b, _.
      repeat split.
      * intros N. subst eqb'. apply Z.eqb_neq in P. contradiction.
      * intros _. eexists. split; reflexivity.
Qed.

Lemma sample_fallback : forall w u b,
  _updated (obj w) = Some u ->
  since (obj w) = Some b ->
  percent (_steps (obj w)) (_done (obj w)) = 0 ->
  sample w =
  (Returned tt,
   mkWorld (sampled_object (clock w (ticks w)) u b 60%float (obj w))
           (clock w) (S (ticks w))).
Proof.
  intros w u b. destruct w as [o c t]; destruct o.
  cbn [obj _updated since _steps _done clock ticks].
  intros -> ->.
  unfold sample, sampled_object, percent.
  remember Z.eqb as eqb' eqn:Heqb.
  remember Z.div as div' eqn:Hdiv.
  remember Z.mul as mul' eqn:Hmul.
  remember PrimFloat.sub as fsub eqn:Hsub.
  remember PrimFloat.add as fadd eqn:Hadd.
  remember float_of_int as conv eqn:Hconv.
  assert (eqb' 0 0 = true) as Z0 by (subst eqb'; reflexivity).
  destruct (eqb' _steps0 0) eqn:E; cbn [negb].
  - intros _. vm_compute. rewrite E. vm_compute. rewrite Z0. reflexivity.
  - intros P. vm_compute. rewrite E. vm_compute. rewrite P, Z0. reflexivity.
Qed.

Lemma sampled_object_fields : forall t u b g o,
  sampled (sampled_object t u b g o) = Some t /\
  updated (sampled_object t u b g o) = Some u /\
  steps (sampled_object t u b g o) = Some (_steps o) /\
  done (sampled_object t u b g o) = Some (_done o) /\
  pcdone (sampled_object t u b g o) = Some (percent (_steps o) (_done o)) /\
  ttg (sampled_object t u b g o) = Some g /\
  eta (sampled_object t u b g o) = Some (PrimFloat.add g t) /\
  elapsed (sampled_object t u b g o) = Some (PrimFloat.sub t b).
Proof. intros. repeat split. Qed.

(** C6: in every snapshot that [sample] produces, [pcdone] is
    [floor(done*100/steps)] when [steps > 0] and 0 when [steps = 0]
    ([steps] and [done] being copies of [_steps] and [_done]); and whenever
    [pcdone] is 0, [ttg] is the fixed 60.0. *)
Theorem sample_percent_and_fallback : forall w w',
  sample w = (Returned tt, w') ->
  steps (obj w') = Some (_steps (obj w)) /\
  done (obj w') = Some (_done (obj w)) /\
  (0 < _steps (obj w) ->
   exists pc,
     pcdone (obj w') = Some pc /\
     pc = _done (obj w) * 100 / _steps (obj w) /\
     pc * _steps (obj w) <= _done (obj w) * 100 < (pc + 1) * _steps (obj w)) /\
  (_steps (obj w) = 0 -> pcdone (obj w') = Some 0) /\
  (pcdone (obj w') = Some 0 -> ttg (obj w') = Some 60%float).
Proof.
  intros w w' H.
  destruct (sample_returns w w' H) as (u & b & g & Hu & Hb & -> & G0 & _).
  cbn [obj].
  destruct (sampled_object_fields (clock w (ticks w)) u b g (obj w))
    as (_ & _ & F3 & F4 & F5 & F6 & _).
  rewrite F3, F4, F5, F6. repeat split.
  - intros Hs. exists (_done (obj w) * 100 / _steps (obj w)).
    unfold percent.
    replace (_steps (obj w) =? 0) with false
      by (symmetry; apply Z.eqb_neq; lia).
    cbn [negb]. repeat split.
    + pose proof (Z.mul_div_le (_done (obj w) * 100) (_steps (obj w)) Hs).
      lia.
    + pose proof (Z.mul_succ_div_gt (_done (obj w) * 100) (_steps (obj w)) Hs).
      lia.
  - intros Hs. unfold percent. rewrite Hs. reflexivity.
  - intros Hp. injection Hp as Hp. now rewrite (G0 Hp).
Qed.

Lemma sample_percent_and_fallback_witness :
  steps (obj (snd (sample midway))) = Some (_steps (obj midway)) /\
  done (obj (snd (sample midway))) = Some (_done (obj midway)) /\
  (0 < _steps (obj midway) ->
   exists pc,
     pcdone (obj (snd (sample midway))) = Some pc /\
     pc = _done (obj midway) * 100 / _steps (obj midway) /\
     pc * _steps (obj midway) <= _done (obj midway) * 100
       < (pc + 1) * _steps (obj midway)) /\
  (_steps (obj midway) = 0 -> pcdone (obj (snd (sample midway))) = Some 0) /\
  (pcdone (obj (snd (sample midway))) = Some 0 ->
   ttg (obj (snd (sample midway))) = Some 60%float).
Proof.
  apply (sample_percent_and_fallback midway (snd (sample midway))).
  vm_compute. reflexivity.
Defined.

(** C5 (as amended): [sample] succeeds on a Task that has the attributes
    [_updated] and [since] -- some run was started and declared a goal --
    and whose [_steps] is 0: the snapshot then has [steps = 0],
    [pcdone = 0] and [ttg = 60.0].  On a Task that was never started
    [sample] raises [AttributeError]: [__init__] sets neither
    attribute. *)
Theorem sample_goal_unknown : forall w u b,
  _updated (obj w) = Some u ->
  since (obj w) = Some b ->
  _steps (obj w) = 0 ->
  (exists w',
     sample w = (Returned tt, w') /\
     steps (obj w') = Some 0 /\
     pcdone (obj w') = Some 0 /\
     ttg (obj w') = Some 60%float) /\
  (forall target name clk n,
     fst (sample (mkWorld (__init__ target name) clk n)) =
     Raised (AttributeError "_updated")).
Proof.
  intros w u b Hu Hb Hs. split.
  - assert (percent (_steps (obj w)) (_done (obj w)) = 0) as Hp
      by (unfold percent; rewrite Hs; reflexivity).
    eexists. split; [apply (sample_fallback w u b Hu Hb Hp)|].
    cbn [obj].
    destruct (sampled_object_fields (clock w (ticks w)) u b 60%float (obj w))
      as (_ & _ & F3 & _ & F5 & F6 & _).
    rewrite F3, F5, F6, Hp, Hs. repeat split.
  - intros target name clk n. reflexivity.
Qed.

Lemma sample_goal_unknown_witness :
  (exists w',
     sample unsized = (Returned tt, w') /\
     steps (obj w') = Some 0 /\
     pcdone (obj w') = Some 0 /\
     ttg (obj w') = Some 60%float) /\
  (forall target name clk n,
     fst (sample (mkWorld (__init__ target name) clk n)) =
     Raised (AttributeError "_updated")).
Proof.
  apply (sample_goal_unknown unsized 2%float 0%float);
    vm_compute; reflexivity.
Defined.

(** The claim as stated fails before any run has started: on a fresh
    Task [sample] does not succeed. *)
Lemma sample_before_first_start :
  fst (sample (fresh (Some count_to))) = Raised (AttributeError "_updated") /\
  fst (sample (fresh (Some count_to))) <> Returned tt.
Proof. split; [reflexivity | discriminate]. Qed.

Lemma sample_keeps_private : forall o0,
  keeps (fun o => private o = private o0) sample.
Proof. intros o0. unfold sample. keeps_stop. Qed.

(** The claim as stated fails: the snapshot is kept on the Task.  A
    [sample] changes the object, and what it wrote is still there after
    later calls on the Task. *)
Lemma sample_writes_the_task :
  fst (sample midway) = Returned tt /\
  obj (snd (sample midway)) <> obj midway /\
  pcdone (obj midway) = None /\
  pcdone (obj (snd (sample midway))) = Some 75 /\
  pcdone (obj (snd ((sample ;; stop ;; wait None) midway))) = Some 75.
Proof.
  split; [vm_compute; reflexivity|].
  split; [|repeat split; vm_compute; reflexivity].
  intros H. apply (f_equal pcdone) in H. vm_compute in H. discriminate.
Qed.

(** ** The progress counter *)

Lemma update_effect : forall d w,
  _done (obj (snd (update d w))) = clamp (_done (obj w) + d) (_steps (obj w)) /\
  _steps (obj (snd (update d w))) = _steps (obj w).
Proof. intros d w. destruct w as [o c t]; destruct o. split; reflexivity. Qed.

Lemma clamp_in_range : forall d s, 0 <= s -> 0 <= clamp d s <= s.
Proof.
  intros d s Hs. unfold clamp.
  destruct (Z.ltb_spec d 0); [lia|].
  destruct (d >? s) eqn:G; [lia|].
  rewrite Z.gtb_ltb in G. apply Z.ltb_ge in G. lia.
Qed.

Lemma update_in_bounds : forall d w,
  0 <= _steps (obj w) -> in_bounds (obj (snd (update d w))).
Proof.
  intros d w Hs. unfold in_bounds.
  destruct (update_effect d w) as [-> ->]. now apply clamp_in_range.
Qed.

Lemma updates_run_cons : forall d ds w,
  updates_run (d :: ds) w = updates_run ds (snd (update d w)).
Proof. reflexivity. Qed.

Lemma updates_run_in_bounds : forall ds w,
  0 <= _steps (obj w) -> in_bounds (obj w) ->
  in_bounds (obj (updates_run ds w)).
Proof.
  induction ds as [|d ds IH]; intros w Hs Hb; [exact Hb|].
  rewrite updates_run_cons. apply IH.
  - destruct (update_effect d w) as [_ ->]. exact Hs.
  - now apply update_in_bounds.
Qed.

Lemma set_goal_effect : forall s d w,
  _done (obj (snd (set_goal s d w))) = d /\
  _steps (obj (snd (set_goal s d w))) =
    match s with Some n => n | None => _steps (obj w) end.
Proof.
  intros s d w. destruct w as [o c t]; destruct o.
  destruct s; split; reflexivity.
Qed.

(** C4 (as amended): on a Task whose [_steps] is not negative, every
    [update(delta)], whatever [delta] and whatever [_done] was, leaves
    [0 <= _done <= _steps], and so does every further sequence of
    updates.  [set_goal(steps, done)] stores its arguments as given: the
    bounds hold after it exactly when the caller's [done] lies between 0
    and the resulting [_steps]. *)
Theorem update_clamps_done : forall w,
  0 <= _steps (obj w) ->
  (forall d ds, in_bounds (obj (updates_run (d :: ds) w))) /\
  (forall s d,
     in_bounds (obj (snd (set_goal s d w))) <->
     0 <= d <= match s with Some n => n | None => _steps (obj w) end).
Proof.
  intros w Hs. split.
  - intros d ds. rewrite updates_run_cons. apply updates_run_in_bounds.
    + destruct (update_effect d w) as [_ ->]. exact Hs.
    + now apply update_in_bounds.
  - intros s d. unfold in_bounds.
    destruct (set_goal_effect s d w) as [-> ->]. reflexivity.
Qed.

Lemma update_clamps_done_witness :
  (forall d ds, in_bounds (obj (updates_run (d :: ds) midway))) /\
  (forall s d,
     in_bounds (obj (snd (set_goal s d midway))) <->
     0 <= d <= match s with Some n => n | None => _steps (obj midway) end).
Proof. apply (update_clamps_done midway). vm_compute. discriminate. Defined.

(** The claim as stated fails for [set_goal]: [set_goal(5, 10)] leaves
    [_done = 10] above [_steps = 5]. *)
Lemma set_goal_does_not_clamp :
  _done (obj (snd (set_goal (Some 5) 10 (fresh (Some count_to))))) = 10 /\
  _steps (obj (snd (set_goal (Some 5) 10 (fresh (Some count_to))))) = 5 /\
  ~ in_bounds (obj (snd (set_goal (Some 5) 10 (fresh (Some count_to))))).
Proof.
  split; [reflexivity|]. split; [reflexivity|].
  unfold in_bounds. cbn. lia.
Qed.

(** * Further properties of the wrapper *)

(** ** A run that returns a value *)

Lemma run_thread_value : forall p n w r,
  _worker (obj w) = Some (InTarget p) ->
  _started (obj w) = true ->
  result_of (_stopping (obj w)) p = Some r ->
  (1 + prog_depth p <= n)%nat ->
  _return (obj (run_thread n w)) = Some RETURN_VALUE /\
  _result (obj (run_thread n w)) = Some r /\
  at_rest (obj (run_thread n w)) /\
  _stopping (obj (run_thread n w)) = _stopping (obj w) /\
  _target (obj (run_thread n w)) = _target (obj w).
Proof.
  induction p as [r0|e|s d k IH|d k IH|k IH]; intros n w r Hw Hs Hr Hn;
    cbn in Hr; try discriminate;
    (destruct n as [|n]; cbn in Hn; [lia|]).
  - destruct n as [|[|n]]; try lia.
    injection Hr as ->.
    open_world w. subst. unfold at_rest.
    destruct n; vm_compute; auto 10.
  - open_world w. subst.
    destruct s as [s|]; cbn;
      match goal with
      | |- context [run_thread n ?w1] =>
          destruct (IH n w1 r eq_refl eq_refl Hr ltac:(lia))
            as (A & B & C & D & E)
      end; cbn in *; auto.
  - open_world w. subst. cbn.
    match goal with
    | |- context [run_thread n ?w1] =>
        destruct (IH n w1 r eq_refl eq_refl Hr ltac:(lia))
          as (A & B & C & D & E)
    end; cbn in *; auto.
  - open_world w. subst. cbn.
    match goal with
    | |- context [run_thread n ?w1] =>
        destruct (IH _stopping0 n w1 r eq_refl eq_refl Hr
                    ltac:(destruct _stopping0; lia)) as (A & B & C & D & E)
    end; cbn in *; auto.
Qed.

Lemma first_goal_declares : forall stop p,
  declares_goal stop p = true <-> exists g, first_goal stop p = Some g.
Proof.
  intros stop p. induction p as [r|e|s d k IH|d k IH|k IH]; cbn.
  - split; [discriminate | intros [g G]; discriminate].
  - split; [discriminate | intros [g G]; discriminate].
  - split; [eauto | reflexivity].
  - split; [discriminate | intros [g G]; discriminate].
  - apply IH.
Qed.

Lemma first_goal_rest : forall stop p s d k,
  first_goal stop p = Some (s, d, k) ->
  result_of stop k = result_of stop p /\
  failure_of stop k = failure_of stop p /\
  (prog_depth k < prog_depth p)%nat.
Proof.
  intros stop p s d k.
  induction p as [r|e|s0 d0 k0 IH|d0 k0 IH|k0 IH]; cbn; try discriminate.
  - intros H; injection H as -> -> ->. repeat split; lia.
  - intros H. destruct (IH stop H) as (A & B & C).
    repeat split; try assumption. destruct stop; lia.
Qed.

Lemma await_first_goal : forall p n w s d k,
  _worker (obj w) = Some (InTarget p) ->
  _started (obj w) = false ->
  first_goal (_stopping (obj w)) p = Some (s, d, k) ->
  (1 + prog_depth p <= n)%nat ->
  await_started n w =
  (Returned tt, set_thread (InTarget k) (snd (set_goal s d w))).
Proof.
  induction p as [r|e|s0 d0 k0 IH|d0 k0 IH|k0 IH]; intros n w s d k Hw Hs Hg Hn;
    cbn in Hg; try discriminate.
  - injection Hg as -> -> ->.
    destruct n as [|n]; cbn in Hn; try lia.
    open_world w. subst.
    destruct s as [s|]; cbn; destruct n; reflexivity.
  - destruct n as [|n]; cbn in Hn; try lia.
    rewrite await_started_unfold, Hs.
    unfold worker_alive at 1. rewrite Hw. cbn [is_alive negb].
    unfold thread_step. rewrite Hw. cbn [settle stopping attr].
    rewrite (IH (_stopping (obj w)) n
               (set_thread (InTarget (k0 (_stopping (obj w)))) w) s d k).
    + destruct w as [o c t]; destruct s; reflexivity.
    + destruct w as [o c t]; reflexivity.
    + destruct w as [o c t]; exact Hs.
    + destruct w as [o c t]; exact Hg.
    + destruct (_stopping (obj w)); lia.
Qed.

(** [start] on an idle Task whose callable declares its goal returns
    at that very call. *)
Lemma start_first_goal : forall args w f s d k,
  _running (obj w) = false ->
  _target (obj w) = Some f ->
  first_goal (_stopping (obj w)) (f args) = Some (s, d, k) ->
  start args w = (Returned tt, goal_declared args s d k w).
Proof.
  intros args w f s d k R T G.
  rewrite start_idle by exact R.
  destruct (spawned_enters args w f T) as [E B].
  rewrite B, await_started_unfold.
  replace (_started (obj (spawned args w))) with false
    by (destruct w as [o c t]; reflexivity).
  replace (worker_alive (spawned args w)) with true
    by (destruct w as [o c t]; reflexivity).
  cbn [negb]. rewrite E.
  rewrite (await_first_goal (f args) (S (prog_depth (f args))) _ s d k).
  - unfold goal_declared, entered.
    destruct w as [o c t]; destruct s; reflexivity.
  - destruct w as [o c t]; reflexivity.
  - destruct w as [o c t]; reflexivity.
  - destruct w as [o c t]; exact G.
  - lia.
Qed.

Lemma goal_declared_facts : forall args s d k w,
  _worker (obj (goal_declared args s d k w)) = Some (InTarget k) /\
  _started (obj (goal_declared args s d k w)) = true /\
  _running (obj (goal_declared args s d k w)) = true /\
  _stopping (obj (goal_declared args s d k w)) = _stopping (obj w) /\
  _target (obj (goal_declared args s d k w)) = _target (obj w) /\
  _done (obj (goal_declared args s d k w)) = d /\
  _steps (obj (goal_declared args s d k w)) =
    match s with Some n => n | None => _steps (obj w) end /\
  since (obj (goal_declared args s d k w)) = Some (clock w (ticks w)) /\
  _updated (obj (goal_declared args s d k w)) =
    Some (clock w (S (ticks w))) /\
  budget (goal_declared args s d k w) = S (prog_depth k).
Proof.
  intros args s d k w. destruct w as [o c t]; destruct o.
  destruct s; repeat split.
Qed.

Lemma call_value_at_rest : forall args w f r,
  _running (obj w) = false ->
  _target (obj w) = Some f ->
  declares_goal (_stopping (obj w)) (f args) = true ->
  result_of (_stopping (obj w)) (f args) = Some r ->
  exists w',
    __call__ args w = (Returned r, w') /\
    at_rest (obj w') /\
    _return (obj w') = Some RETURN_NOTHING /\
    _result (obj w') = Some PyNone /\
    _target (obj w') = Some f /\
    _stopping (obj w') = _stopping (obj w).
Proof.
  intros args w f r R T G V.
  apply first_goal_declares in G. destruct G as [[[s d] k] G].
  destruct (first_goal_rest _ _ s d k G) as (V1 & _ & _).
  unfold __call__, bind.
  rewrite (start_first_goal args w f s d k R T G).
  destruct (goal_declared_facts args s d k w)
    as (W & S & _ & P & T' & _ & _ & _ & _ & B).
  set (w1 := goal_declared args s d k w) in *.
  destruct (run_thread_value k (budget w1) w1 r W S) as (A1 & A2 & A3 & A4 & A5).
  { rewrite P, V1. exact V. }
  { rewrite B. lia. }
  rewrite (wait_value None w1 (run_thread (budget w1) w1) (InTarget k) r
             W (join_run_thread None w1) A1 A2).
  eexists. split; [reflexivity|].
  destruct (run_thread (budget w1) w1) as [o c t].
  cbn in *. repeat split; try apply A3; congruence.
Qed.

(** X1: the synchronous call.  A callable that declares its goal
    before anything else and then, whatever it reports meanwhile,
    returns [r]: the call returns [r], and the Task is at rest
    afterwards -- not running, "started" cleared, the outcome slot
    emptied -- with its callable and its stop flag as before. *)
Theorem call_returns_value : forall args w f r,
  _running (obj w) = false ->
  _target (obj w) = Some f ->
  declares_goal (_stopping (obj w)) (f args) = true ->
  result_of (_stopping (obj w)) (f args) = Some r ->
  exists w',
    __call__ args w = (Returned r, w') /\
    at_rest (obj w') /\
    _return (obj w') = Some RETURN_NOTHING /\
    _result (obj w') = Some PyNone /\
    _target (obj w') = Some f /\
    _stopping (obj w') = _stopping (obj w).
Proof. exact call_value_at_rest. Qed.

Lemma call_returns_value_witness :
  exists w',
    __call__ [PyInt 5] (fresh (Some count_to)) = (Returned PyNone, w') /\
    at_rest (obj w') /\
    _return (obj w') = Some RETURN_NOTHING /\
    _result (obj w') = Some PyNone /\
    _target (obj w') = Some count_to /\
    _stopping (obj w') = _stopping (obj (fresh (Some count_to))).
Proof.
  apply (call_returns_value [PyInt 5] (fresh (Some count_to)) count_to PyNone);
    reflexivity.
Defined.

(** X2: the Task can be used again.  Two synchronous calls in a row,
    each with arguments for which the callable declares its goal and
    returns, both return their values; the first leaves nothing behind
    that would make the second fail with [AlreadyStartedError]. *)
Theorem call_twice : forall args1 args2 w f r1 r2,
  _running (obj w) = false ->
  _target (obj w) = Some f ->
  declares_goal (_stopping (obj w)) (f args1) = true ->
  result_of (_stopping (obj w)) (f args1) = Some r1 ->
  declares_goal (_stopping (obj w)) (f args2) = true ->
  result_of (_stopping (obj w)) (f args2) = Some r2 ->
  exists w',
    (a <- __call__ args1 ;; b <- __call__ args2 ;; ret (a, b)) w =
      (Returned (r1, r2), w') /\
    at_rest (obj w').
Proof.
  intros args1 args2 w f r1 r2 R T G1 V1 G2 V2.
  destruct (call_value_at_rest args1 w f r1 R T G1 V1)
    as (w1 & E1 & (R1 & _ & _) & _ & _ & T1 & S1).
  rewrite <- S1 in G2, V2.
  destruct (call_value_at_rest args2 w1 f r2 R1 T1 G2 V2)
    as (w2 & E2 & A2 & _).
  exists w2. unfold bind at 1. rewrite E1.
  unfold bind. rewrite E2. split; [reflexivity | exact A2].
Qed.

Lemma call_twice_witness :
  exists w',
    (a <- __call__ [PyInt 2] ;; b <- __call__ [PyInt 3] ;; ret (a, b))
      (fresh (Some count_to)) = (Returned (PyNone, PyNone), w') /\
    at_rest (obj w').
Proof.
  apply (call_twice [PyInt 2] [PyInt 3] (fresh (Some count_to)) count_to);
    reflexivity.
Defined.

(** ** How [start] ends *)

(** A callable does exactly one of three things first. *)
Lemma callable_kinds : forall stop p,
  (declares_goal stop p = true /\ ends_without_goal stop p = false /\
   updates_first stop p = false) \/
  (declares_goal stop p = false /\ ends_without_goal stop p = true /\
   updates_first stop p = false) \/
  (declares_goal stop p = false /\ ends_without_goal stop p = false /\
   updates_first stop p = true).
Proof.
  intros stop p. induction p as [r|e|s d k IH|d k IH|k IH]; cbn; auto 10.
Qed.

Lemma await_updates_first : forall p n w,
  _worker (obj w) = Some (InTarget p) ->
  _started (obj w) = false ->
  updates_first (_stopping (obj w)) p = true ->
  (1 + prog_depth p <= n)%nat ->
  exists w',
    await_started n w = (Blocked, w') /\
    _running (obj w') = _running (obj w) /\
    _started (obj w') = false /\
    worker_alive w' = true /\
    thread_step true w' = None.
Proof.
  induction p as [r|e|s d k IH|d k IH|k IH]; intros n w Hw Hs Hg Hn;
    cbn in Hg; try discriminate.
  - destruct n as [|n]; cbn in Hn; try lia.
    exists w. open_world w. subst. cbn. auto.
  - destruct n as [|n]; cbn in Hn; try lia.
    rewrite await_started_unfold, Hs.
    unfold worker_alive at 1. rewrite Hw. cbn [is_alive negb].
    unfold thread_step at 1. rewrite Hw. cbn [settle stopping attr].
    destruct (IH (_stopping (obj w)) n
                 (set_thread (InTarget (k (_stopping (obj w)))) w))
      as (w' & E & A).
    + destruct w as [o c t]; reflexivity.
    + destruct w as [o c t]; exact Hs.
    + destruct w as [o c t]; exact Hg.
    + destruct (_stopping (obj w)); lia.
    + exists w'. split; [exact E|]. destruct w as [o c t]; exact A.
Qed.

Lemma await_no_goal_outcome : forall p n w,
  _worker (obj w) = Some (InTarget p) ->
  _started (obj w) = false ->
  ends_without_goal (_stopping (obj w)) p = true ->
  (1 + prog_depth p <= n)%nat ->
  exists w',
    await_started n w = (Raised ActionFailedError, w') /\
    _running (obj w') = false /\
    _worker (obj w') =
      Some (Terminated
              match result_of (_stopping (obj w)) p with
              | Some _ => None
              | None => Some (NameError "sys")
              end) /\
    _return (obj w') =
      Some match result_of (_stopping (obj w)) p with
           | Some _ => RETURN_VALUE
           | None => RETURN_EXCEPTION
           end /\
    _result (obj w') =
      match result_of (_stopping (obj w)) p with
      | Some r => Some r
      | None => _result (obj w)
      end /\
    _exc_info (obj w') = _exc_info (obj w).
Proof.
  induction p as [r|e|s d k IH|d k IH|k IH]; intros n w Hw Hs Hg Hn;
    cbn in Hg; try discriminate.
  - destruct n as [|[|[|n]]]; cbn in Hn; try lia.
    open_world w. subst.
    destruct n; vm_compute; (eexists; split; [reflexivity|auto]).
  - destruct n as [|[|n]]; cbn in Hn; try lia.
    open_world w. subst.
    destruct n; vm_compute; (eexists; split; [reflexivity|auto]).
  - destruct n as [|n]; cbn in Hn; try lia.
    rewrite await_started_unfold, Hs.
    unfold worker_alive at 1. rewrite Hw. cbn [is_alive negb].
    unfold thread_step. rewrite Hw. cbn [settle stopping attr].
    destruct (IH (_stopping (obj w)) n
                 (set_thread (InTarget (k (_stopping (obj w)))) w))
      as (w' & E & A).
    + destruct w as [o c t]; reflexivity.
    + destruct w as [o c t]; exact Hs.
    + destruct w as [o c t]; exact Hg.
    + destruct (_stopping (obj w)); lia.
    + exists w'. split; [exact E|]. destruct w as [o c t]; exact A.
Qed.

Lemma start_enters : forall args w f,
  _running (obj w) = false ->
  _target (obj w) = Some f ->
  start args w =
  await_started (S (prog_depth (f args)))
    (set_thread (InTarget (f args)) (entered args w)).
Proof.
  intros args w f R T. rewrite start_idle by exact R.
  destruct (spawned_enters args w f T) as [E B].
  rewrite B, await_started_unfold.
  replace (_started (obj (spawned args w))) with false
    by (destruct w as [o c t]; reflexivity).
  replace (worker_alive (spawned args w)) with true
    by (destruct w as [o c t]; reflexivity).
  cbn [negb]. rewrite E. reflexivity.
Qed.

(** X3: a callable that calls [update] before it has declared a goal
    hangs the caller.  [start] holds the lock while it waits for the
    "started" signal, [update] needs the lock: [start] never returns, the
    worker stays alive and cannot move, and the Task stays marked as
    running. *)
Theorem start_hangs_on_early_update : forall args w f,
  _running (obj w) = false ->
  _target (obj w) = Some f ->
  updates_first (_stopping (obj w)) (f args) = true ->
  exists w',
    start args w = (Blocked, w') /\
    _running (obj w') = true /\
    _started (obj w') = false /\
    worker_alive w' = true /\
    thread_step true w' = None.
Proof.
  intros args w f R T U. rewrite (start_enters args w f R T).
  destruct (await_updates_first (f args) (S (prog_depth (f args)))
              (set_thread (InTarget (f args)) (entered args w)))
    as (w' & E & A1 & A2 & A3 & A4).
  - destruct w as [o c t]; reflexivity.
  - destruct w as [o c t]; reflexivity.
  - destruct w as [o c t]; exact U.
  - lia.
  - exists w'. split; [exact E|]. rewrite A1.
    destruct w as [o c t]. auto.
Qed.

Lemma start_hangs_on_early_update_witness :
  exists w',
    start [] (fresh (Some hasty)) = (Blocked, w') /\
    _running (obj w') = true /\
    _started (obj w') = false /\
    worker_alive w' = true /\
    thread_step true w' = None.
Proof.
  apply (start_hangs_on_early_update [] (fresh (Some hasty)) hasty);
    reflexivity.
Defined.

Lemma start_declares_returns : forall args w f,
  _running (obj w) = false ->
  _target (obj w) = Some f ->
  declares_goal (_stopping (obj w)) (f args) = true ->
  exists s d k,
    first_goal (_stopping (obj w)) (f args) = Some (s, d, k) /\
    start args w = (Returned tt, goal_declared args s d k w).
Proof.
  intros args w f R T G.
  apply first_goal_declares in G. destruct G as [[[s d] k] G].
  exists s, d, k. split; [exact G|].
  apply (start_first_goal args w f s d k R T G).
Qed.

Lemma start_ends_raises : forall args w f,
  _running (obj w) = false ->
  _target (obj w) = Some f ->
  ends_without_goal (_stopping (obj w)) (f args) = true ->
  fst (start args w) = Raised ActionFailedError.
Proof.
  intros args w f R T G. rewrite (start_enters args w f R T).
  destruct (await_no_goal_outcome (f args) (S (prog_depth (f args)))
              (set_thread (InTarget (f args)) (entered args w)))
    as (w' & E & _);
    [ destruct w as [o c t]; reflexivity
    | destruct w as [o c t]; reflexivity
    | destruct w as [o c t]; exact G
    | lia
    | now rewrite E ].
Qed.

Lemma start_updates_blocks : forall args w f,
  _running (obj w) = false ->
  _target (obj w) = Some f ->
  updates_first (_stopping (obj w)) (f args) = true ->
  fst (start args w) = Blocked.
Proof.
  intros args w f R T G. rewrite (start_enters args w f R T).
  destruct (await_updates_first (f args) (S (prog_depth (f args)))
              (set_thread (InTarget (f args)) (entered args w)))
    as (w' & E & _);
    [ destruct w as [o c t]; reflexivity
    | destruct w as [o c t]; reflexivity
    | destruct w as [o c t]; exact G
    | lia
    | now rewrite E ].
Qed.

Lemma start_no_callable_raises : forall args w,
  _running (obj w) = false ->
  _target (obj w) = None ->
  start args w =
  (Raised ActionFailedError,
   on_obj (fun o => set__running false
             (set__worker (Some (dies (NameError "NothingToDoBug"))) o))
          (spawned args w)).
Proof.
  intros args w R T. rewrite start_idle by exact R.
  destruct w as [o c t]; destruct o; cbn in T, R; subst.
  vm_compute; reflexivity.
Qed.

(** A [start] that returns has seen the callable declare its goal. *)
Lemma start_returned_goal : forall args w w1,
  start args w = (Returned tt, w1) ->
  exists s d k, w1 = goal_declared args s d k w.
Proof.
  intros args w w1 H.
  destruct (_running (obj w)) eqn:R.
  { rewrite start_while_running_eq in H by exact R. discriminate. }
  destruct (_target (obj w)) as [f|] eqn:T.
  2:{ rewrite (start_no_callable_raises args w R T) in H. discriminate. }
  destruct (callable_kinds (_stopping (obj w)) (f args))
    as [(A & _)|[(_ & B & _)|(_ & _ & C)]].
  - destruct (start_declares_returns args w f R T A) as (s & d & k & _ & E).
    rewrite E in H. injection H as <-. eauto.
  - pose proof (start_ends_raises args w f R T B) as E.
    rewrite H in E. discriminate.
  - pose proof (start_updates_blocks args w f R T C) as E.
    rewrite H in E. discriminate.
Qed.



(** X5: what a failed handshake leaves for [wait].  When the callable
    ends before declaring a goal, [start] raises [ActionFailedError]; the
    outcome of the callable is in the slot all the same.  A later [wait]
    returns the value the callable returned; if the callable raised, [wait]
    raises the [TypeError] of [raise None], the failure itself being
    lost. *)
Theorem wait_after_failed_start : forall args w f,
  _running (obj w) = false ->
  _target (obj w) = Some f ->
  ends_without_goal (_stopping (obj w)) (f args) = true ->
  exists w1,
    start args w = (Raised ActionFailedError, w1) /\
    match result_of (_stopping (obj w)) (f args) with
    | Some r => wait None w1 = (Returned r, on_obj consumed w1)
    | None => wait None w1 = (Raised raise_None, w1)
    end.
Proof.
  intros args w f R T G. rewrite (start_enters args w f R T).
  destruct (await_no_goal_outcome (f args) (S (prog_depth (f args)))
              (set_thread (InTarget (f args)) (entered args w)))
    as (w1 & E & _ & W & C & V & I);
    [ destruct w as [o c t]; reflexivity
    | destruct w as [o c t]; reflexivity
    | destruct w as [o c t]; exact G
    | lia
    | ].
  exists w1. split; [exact E|].
  replace (_stopping (obj (set_thread (InTarget (f args)) (entered args w))))
    with (_stopping (obj w)) in * by (destruct w as [o c t]; reflexivity).
  destruct (result_of (_stopping (obj w)) (f args)) as [r|].
  - apply (wait_value None w1 w1 _ r W); [|exact C|exact V].
    now apply (join_dead None w1 _ W).
  - apply (wait_exception None w1 w1 _ NoExcInfo W); [|exact C|].
    + now apply (join_dead None w1 _ W).
    + rewrite I. destruct w as [o c t]; reflexivity.
Qed.

Lemma wait_after_failed_start_witness :
  exists w1,
    start [] (fresh (Some idle)) = (Raised ActionFailedError, w1) /\
    match result_of false (idle []) with
    | Some r => wait None w1 = (Returned r, on_obj consumed w1)
    | None => wait None w1 = (Raised raise_None, w1)
    end.
Proof.
  apply (wait_after_failed_start [] (fresh (Some idle)) idle); reflexivity.
Defined.

(** ** A Task without a callable, a Task never started *)

Lemma wait_no_slot : forall t w th,
  _worker (obj w) = Some th ->
  is_alive th = false ->
  _return (obj w) = None ->
  wait t w = (Raised (AttributeError "_return"), w).
Proof.
  intros t w th Hw Ha Hc. unfold wait, bind, getattr.
  rewrite Hw, (join_dead t w th Hw Ha), Hc. reflexivity.
Qed.

(** X6: a Task built without a callable.  [run] means to raise
    [NothingToDoBug], a name the module does not define (the class is
    [NothingToDoError]): the worker dies of [NameError] before it touches
    the outcome slot, [start] raises [ActionFailedError] and the Task is
    idle again.  If no earlier run has filled the slot, a [wait] then
    fails with [AttributeError] on [_return]. *)
Theorem start_without_callable : forall args w,
  _running (obj w) = false ->
  _target (obj w) = None ->
  exists w',
    start args w = (Raised ActionFailedError, w') /\
    _worker (obj w') = Some (Terminated (Some (NameError "NothingToDoBug"))) /\
    _running (obj w') = false /\
    _return (obj w') = _return (obj w) /\
    (_return (obj w) = None ->
     forall t, wait t w' = (Raised (AttributeError "_return"), w')).
Proof.
  intros args w R T. rewrite start_idle by exact R.
  exists (on_obj (fun o => set__running false
                    (set__worker
                       (Some (dies (NameError "NothingToDoBug"))) o))
                 (spawned args w)).
  destruct w as [o c t]; destruct o; cbn in T, R; subst.
  split; [vm_compute; reflexivity|].
  repeat split. cbn [obj _return]. intros -> t'.
  now apply (wait_no_slot t' _ (dies (NameError "NothingToDoBug"))).
Qed.

Lemma start_without_callable_witness :
  exists w',
    start [] (fresh None) = (Raised ActionFailedError, w') /\
    _worker (obj w') = Some (Terminated (Some (NameError "NothingToDoBug"))) /\
    _running (obj w') = false /\
    _return (obj w') = _return (obj (fresh None)) /\
    (_return (obj (fresh None)) = None ->
     forall t, wait t w' = (Raised (AttributeError "_return"), w')).
Proof. apply (start_without_callable [] (fresh None)); reflexivity. Defined.

(** X7: a Task that was never started.  [wait] fails with
    [AttributeError] on [_worker] and [exc_info] with [AttributeError] on
    [_exc_info], both leaving the Task as it is; [started] and [stopping]
    answer false; the counters are 0 of 0. *)
Theorem never_started : forall target name clk n t,
  let w := mkWorld (__init__ target name) clk n in
  wait t w = (Raised (AttributeError "_worker"), w) /\
  get_exc_info w = (Raised (AttributeError "_exc_info"), w) /\
  started w = (Returned false, w) /\
  stopping w = (Returned false, w) /\
  _steps (obj w) = 0 /\ _done (obj w) = 0.
Proof. intros. repeat split. Qed.

(** ** The arithmetic of [update] *)

Lemma clamp_max_min : forall d s, 0 <= s -> clamp d s = Z.max 0 (Z.min d s).
Proof.
  intros d s Hs. unfold clamp.
  destruct (Z.ltb_spec d 0); [lia|].
  destruct (d >? s) eqn:G.
  - rewrite Z.gtb_ltb in G. apply Z.ltb_lt in G. lia.
  - rewrite Z.gtb_ltb in G. apply Z.ltb_ge in G. lia.
Qed.

Lemma update_timestamp : forall d w,
  _updated (obj (snd (update d w))) = Some (clock w (ticks w)).
Proof. intros d w. destruct w as [o c t]; destruct o. reflexivity. Qed.

(** X8: [update(delta)] is a saturating addition.  With [_steps] not
    negative, [_done] becomes [max(0, min(_done + delta, _steps))],
    [_steps] stays and [_updated] is the time of the call.  Within
    bounds, a non-negative delta never lowers [_done], and [update(0)] --
    the forced last update of a run -- leaves it as it is. *)
Theorem update_saturates : forall d w,
  0 <= _steps (obj w) ->
  _done (obj (snd (update d w))) =
    Z.max 0 (Z.min (_done (obj w) + d) (_steps (obj w))) /\
  _steps (obj (snd (update d w))) = _steps (obj w) /\
  _updated (obj (snd (update d w))) = Some (clock w (ticks w)) /\
  (in_bounds (obj w) -> 0 <= d ->
   _done (obj w) <= _done (obj (snd (update d w)))) /\
  (in_bounds (obj w) -> d = 0 ->
   _done (obj (snd (update d w))) = _done (obj w)).
Proof.
  intros d w Hs. destruct (update_effect d w) as [E1 E2].
  rewrite E1, E2, update_timestamp, (clamp_max_min _ _ Hs).
  unfold in_bounds. repeat split; intros; lia.
Qed.

Lemma update_saturates_witness :
  _done (obj (snd (update 7 midway))) =
    Z.max 0 (Z.min (_done (obj midway) + 7) (_steps (obj midway))) /\
  _steps (obj (snd (update 7 midway))) = _steps (obj midway) /\
  _updated (obj (snd (update 7 midway))) =
    Some (clock midway (ticks midway)) /\
  (in_bounds (obj midway) -> 0 <= 7 ->
   _done (obj midway) <= _done (obj (snd (update 7 midway)))) /\
  (in_bounds (obj midway) -> 7 = 0 ->
   _done (obj (snd (update 7 midway))) = _done (obj midway)).
Proof. apply (update_saturates 7 midway). vm_compute. discriminate. Defined.

Lemma updates_run_steps : forall ds w,
  _steps (obj (updates_run ds w)) = _steps (obj w).
Proof.
  induction ds as [|d ds IH]; intros w; [reflexivity|].
  rewrite updates_run_cons, IH. apply update_effect.
Qed.

(** X9: updates add up.  From a state within bounds, a run of
    non-negative updates leaves [_done = min(_steps, _done + sum)]: progress
    reported in pieces is progress reported at once, capped at the
    goal. *)
Theorem updates_run_total : forall ds w,
  in_bounds (obj w) ->
  Forall (fun d => 0 <= d) ds ->
  _done (obj (updates_run ds w)) =
    Z.min (_steps (obj w)) (_done (obj w) + total ds).
Proof.
  induction ds as [|d ds IH]; intros w Hb Hd.
  - unfold in_bounds in Hb. cbn. lia.
  - inversion Hd as [|? ? Hd1 Hd2]; subst.
    assert (0 <= _steps (obj w)) as Hs by (unfold in_bounds in Hb; lia).
    rewrite updates_run_cons, IH; [|now apply update_in_bounds|exact Hd2].
    destruct (update_effect d w) as [E1 E2].
    rewrite E1, E2, (clamp_max_min _ _ Hs).
    assert (0 <= total ds) as Ht.
    { clear - Hd2. induction Hd2; cbn; [lia|]. unfold total in *. lia. }
    unfold in_bounds in Hb. cbn [total fold_right]. fold (total ds). lia.
Qed.

Lemma updates_run_total_witness :
  _done (obj (updates_run [1; 0; 2] midway)) =
    Z.min (_steps (obj midway)) (_done (obj midway) + total [1; 0; 2]).
Proof.
  apply (updates_run_total [1; 0; 2] midway).
  - vm_compute. split; discriminate.
  - repeat constructor; lia.
Defined.

(** ** Timeouts *)

Lemma run_thread_stuck : forall n w,
  thread_step false w = None -> run_thread n w = w.
Proof. intros [|n] w H; cbn; [reflexivity | now rewrite H]. Qed.

Lemma run_thread_add : forall n m w,
  run_thread (n + m) w = run_thread m (run_thread n w).
Proof.
  induction n as [|n IH]; intros m w; [reflexivity|].
  cbn. destruct (thread_step false w) as [w'|] eqn:E; [apply IH|].
  symmetry. now apply run_thread_stuck.
Qed.

Lemma dead_thread_stuck : forall w,
  worker_alive w = false -> thread_step false w = None.
Proof.
  intros w H. unfold worker_alive in H. unfold thread_step.
  destruct (_worker (obj w)) as [[args|p|r1|e1| |u]|]; try discriminate; reflexivity.
Qed.

(** X10: a timeout that is long enough.  If the worker terminates
    within the timeout, [wait(timeout)] does exactly what [wait()]
    does. *)
Theorem wait_timeout_enough : forall n w,
  worker_alive (run_thread n w) = false ->
  wait (Some n) w = wait None w.
Proof.
  intros n w H.
  assert (run_thread (budget w) w = run_thread n w) as E.
  { destruct (Nat.le_gt_cases n (budget w)) as [L|L].
    - replace (budget w) with (n + (budget w - n))%nat by lia.
      rewrite run_thread_add. apply run_thread_stuck.
      now apply dead_thread_stuck.
    - apply run_thread_fuel; lia. }
  unfold wait, bind, getattr.
  destruct (_worker (obj w)); [|reflexivity].
  rewrite (join_run_thread (Some n)), (join_run_thread None), E.
  reflexivity.
Qed.

Lemma wait_timeout_enough_witness :
  wait (Some 9%nat) (snd (start [PyInt 4] (fresh (Some count_to)))) =
  wait None (snd (start [PyInt 4] (fresh (Some count_to)))).
Proof. apply wait_timeout_enough. vm_compute. reflexivity. Defined.

(** ** Sampling a run *)

Lemma thread_step_timestamps : forall l w w',
  thread_step l w = Some w' ->
  since (obj w') = since (obj w) /\
  (_updated (obj w) <> None -> _updated (obj w') <> None).
Proof.
  intros l w w' H. open_world w.
  destruct _worker0 as [[args|p|r1|e1| |u]|]; cbn in H; try discriminate.
  - destruct _target0; cbn in H; injection H as <-; cbn; auto.
  - destruct p as [r|e|[s|] d k|d k|k]; cbn in H;
      try (destruct l; cbn in H); try discriminate;
      injection H as <-; cbn; split; auto; discriminate.
  - injection H as <-; cbn; auto.
  - injection H as <-; cbn; auto.
  - destruct _started0; cbn in H; try (destruct l; cbn in H);
      try discriminate; injection H as <-; cbn; split; auto; discriminate.
Qed.

Lemma run_thread_timestamps : forall n w,
  since (obj (run_thread n w)) = since (obj w) /\
  (_updated (obj w) <> None -> _updated (obj (run_thread n w)) <> None).
Proof.
  induction n as [|n IH]; intros w; cbn; [auto|].
  destruct (thread_step false w) as [w'|] eqn:E; [|auto].
  destruct (thread_step_timestamps _ _ _ E) as [A B].
  destruct (IH w') as [A' B']. rewrite A', A. auto.
Qed.

(** With both timestamps in place [sample] can only fail on the
    conversion of [pcdone] to a double. *)
Lemma sample_total : forall w u b,
  _updated (obj w) = Some u ->
  since (obj w) = Some b ->
  (exists w', sample w = (Returned tt, w')) \/
  (exists w',
     sample w =
     (Raised (OverflowError "long int too large to convert to float"), w')).
Proof.
  intros w u b. destruct w as [o c t]; destruct o.
  cbn [obj _updated since]. intros -> ->.
  unfold sample, float_of_int, extrapolate.
  remember Z.eqb as eqb' eqn:Heqb.
  remember Z.div as div' eqn:Hdiv.
  remember Z.mul as mul' eqn:Hmul.
  remember to_double as dbl eqn:Hdbl.
  remember PrimFloat.sub as fsub eqn:Hsub.
  remember PrimFloat.add as fadd eqn:Hadd.
  remember PrimFloat.mul as fmul eqn:Hfmul.
  remember PrimFloat.div as fdiv eqn:Hfdiv.
  remember is_infinity as isinf eqn:Hinf.
  assert (eqb' 0 0 = true) as Z0 by (subst eqb'; reflexivity).
  vm_compute.
  destruct (eqb' _steps0 0) eqn:E; vm_compute.
  - rewrite Z0. left. eexists. reflexivity.
  - destruct (eqb' (div' (mul' _done0 100) _steps0) 0) eqn:P.
    + left. eexists. reflexivity.
    + destruct (isinf (dbl (div' (mul' _done0 100) _steps0))) eqn:I.
      * right. eexists. reflexivity.
      * left. eexists. reflexivity.
Qed.

(** X11: the handshake protects the observer.  Once [start] has
    returned, however far the worker has got since, [sample] finds both
    timestamps: it returns, or fails on the conversion of an oversized
    [pcdone] to a double; it never fails for a missing attribute. *)
Theorem sample_after_start : forall args w w1 n,
  start args w = (Returned tt, w1) ->
  (exists w2, sample (run_thread n w1) = (Returned tt, w2)) \/
  (exists w2,
     sample (run_thread n w1) =
     (Raised (OverflowError "long int too large to convert to float"), w2)).
Proof.
  intros args w w1 n H.
  destruct (start_returned_goal args w w1 H) as (s & d & k & ->).
  destruct (goal_declared_facts args s d k w)
    as (_ & _ & _ & _ & _ & _ & _ & Hb & Hu & _).
  destruct (run_thread_timestamps n (goal_declared args s d k w)) as [A B].
  rewrite Hb in A. rewrite Hu in B.
  destruct (_updated (obj (run_thread n (goal_declared args s d k w))))
    as [u|] eqn:U; [|exfalso; apply B; [discriminate|reflexivity]].
  exact (sample_total _ u _ U A).
Qed.

Lemma sample_after_start_witness :
  (exists w2,
     sample (run_thread 2 (snd (start [PyInt 4] (fresh (Some count_to))))) =
     (Returned tt, w2)) \/
  (exists w2,
     sample (run_thread 2 (snd (start [PyInt 4] (fresh (Some count_to))))) =
     (Raised (OverflowError "long int too large to convert to float"), w2)).
Proof.
  apply (sample_after_start [PyInt 4] (fresh (Some count_to))).
  vm_compute. reflexivity.
Defined.

Lemma percent_range : forall s d,
  0 <= d <= s ->
  0 <= percent s d <= 100 /\ (0 < s -> (percent s d = 100 <-> d = s)).
Proof.
  intros s d H. unfold percent.
  destruct (Z.eqb_spec s 0) as [->|N]; cbn [negb]; [lia|].
  assert (0 < s) as Hs by lia.
  pose proof (Z.mul_div_le (d * 100) s Hs).
  pose proof (Z.mul_succ_div_gt (d * 100) s Hs).
  pose proof (Z.div_pos (d * 100) s ltac:(lia) Hs).
  split; [split; [lia|nia]|]. intros _. split; [nia|].
  intros ->. rewrite Z.mul_comm. now apply Z.div_mul.
Qed.

(** X12: the percentage stays on the scale.  Whenever [_done] lies
    within [0, _steps], a snapshot has [0 <= pcdone <= 100]; and with a
    positive goal, [pcdone] is 100 exactly when all steps are done. *)
Theorem sample_percent_range : forall w w',
  sample w = (Returned tt, w') ->
  in_bounds (obj w) ->
  exists pc,
    pcdone (obj w') = Some pc /\
    0 <= pc <= 100 /\
    (0 < _steps (obj w) -> (pc = 100 <-> _done (obj w) = _steps (obj w))).
Proof.
  intros w w' H Hb.
  destruct (sample_returns w w' H) as (u & b & g & _ & _ & -> & _).
  exists (percent (_steps (obj w)) (_done (obj w))).
  split; [apply sampled_object_fields|].
  now apply percent_range.
Qed.

Lemma sample_percent_range_witness :
  exists pc,
    pcdone (obj (snd (sample midway))) = Some pc /\
    0 <= pc <= 100 /\
    (0 < _steps (obj midway) ->
     (pc = 100 <-> _done (obj midway) = _steps (obj midway))).
Proof.
  apply (sample_percent_range midway (snd (sample midway))).
  - vm_compute. reflexivity.
  - vm_compute. split; discriminate.
Defined.

(** A [sample] that estimates: [pcdone] is not 0 and fits a double. *)
Lemma sample_estimates : forall w u b,
  _updated (obj w) = Some u ->
  since (obj w) = Some b ->
  percent (_steps (obj w)) (_done (obj w)) <> 0 ->
  is_infinity (to_double (percent (_steps (obj w)) (_done (obj w)))) = false ->
  sample w =
  (Returned tt,
   mkWorld
     (sampled_object (clock w (ticks w)) u b
        (extrapolate u b
           (to_double (percent (_steps (obj w)) (_done (obj w))))
           (to_double (percent (_steps (obj w)) (_done (obj w))))
           (clock w (ticks w)))
        (obj w))
     (clock w) (S (ticks w))).
Proof.
  intros w u b. destruct w as [o c t]; destruct o.
  cbn [obj _updated since _steps _done clock ticks]. intros -> ->.
  unfold sample, sampled_object, percent, float_of_int, extrapolate.
  remember Z.eqb as eqb' eqn:Heqb.
  remember Z.div as div' eqn:Hdiv.
  remember Z.mul as mul' eqn:Hmul.
  remember to_double as dbl eqn:Hdbl.
  remember PrimFloat.sub as fsub eqn:Hsub.
  remember PrimFloat.add as fadd eqn:Hadd.
  remember PrimFloat.mul as fmul eqn:Hfmul.
  remember PrimFloat.div as fdiv eqn:Hfdiv.
  remember is_infinity as isinf eqn:Hinf.
  destruct (eqb' _steps0 0) eqn:E; cbn [negb].
  - intros N. now contradiction N.
  - intros N I.
    assert (eqb' (div' (mul' _done0 100) _steps0) 0 = false) as P.
    { subst eqb'. now apply Z.eqb_neq. }
    vm_compute. rewrite E. vm_compute. rewrite P. vm_compute. rewrite I.
    reflexivity.
Qed.


(** ** The worker, step by step *)


Lemma step_stopping : forall l w k,
  _worker (obj w) = Some (InTarget (Stopping k)) ->
  thread_step l w = Some (set_thread (InTarget (k (_stopping (obj w)))) w).
Proof. intros l w k H. unfold thread_step. rewrite H. reflexivity. Qed.

Lemma step_update : forall w d k,
  _worker (obj w) = Some (InTarget (Update d k)) ->
  thread_step false w = Some (set_thread (InTarget k) (snd (update d w))).
Proof. intros w d k H. unfold thread_step. rewrite H. reflexivity. Qed.

Lemma step_return : forall l w r,
  _worker (obj w) = Some (InTarget (Return r)) ->
  thread_step l w =
  Some (set_thread (Storing r) (on_obj (set__return (Some RETURN_VALUE)) w)).
Proof. intros l w r H. unfold thread_step. rewrite H. reflexivity. Qed.


Lemma step_store : forall l w r,
  _worker (obj w) = Some (Storing r) ->
  thread_step l w =
  Some (set_thread AfterRun (on_obj (set__result (Some r)) w)).
Proof. intros l w r H. unfold thread_step. rewrite H. reflexivity. Qed.


Lemma step_bookkeeping : forall w,
  _worker (obj w) = Some AfterRun ->
  _started (obj w) = true ->
  thread_step false w = Some (set_thread (Terminated None) (snd (bookkeeping w))).
Proof.
  intros w H S. unfold thread_step. rewrite H.
  unfold _run_stop_tail, bind at 1, attr. rewrite S. reflexivity.
Qed.






(** ** The outcome slot during a run *)








(** ** One outcome per run *)











(** ** The snapshot stays *)

Lemma set_goal_keeps_public : forall o0 s d,
  keeps (fun o => public o = public o0) (set_goal s d).
Proof. intros o0 s d. unfold set_goal. keeps_stop. Qed.

Lemma update_keeps_public : forall o0 d,
  keeps (fun o => public o = public o0) (update d).
Proof. intros o0 d. unfold update. keeps_stop. Qed.

Lemma thread_step_keeps_public : forall o0 l w w',
  thread_step l w = Some w' ->
  public (obj w) = public o0 -> public (obj w') = public o0.
Proof.
  intros o0 l w w' H Hq. unfold thread_step in H.
  destruct (_worker (obj w)) as [[args|p|r1|e1| |u]|]; try discriminate;
    [|destruct p as [r|e|s d k|d k|k]| | |];
    (eapply (keeps_settle (fun o => public o = public o0));
     [intros ? ? Hq'; exact Hq'| |exact H|exact Hq]).
  - unfold run_enter. keeps_stop.
  - unfold run_returned_kind. keeps_stop.
  - unfold run_except_kind. keeps_stop.
  - apply set_goal_keeps_public.
  - apply keeps_bind; [keeps_stop|intros; apply update_keeps_public].
  - unfold stopping. keeps_stop.
  - unfold run_returned_value. keeps_stop.
  - unfold run_except_info. keeps_stop.
  - unfold _run_stop_tail. keeps_stop.
Qed.

Lemma start_keeps_public : forall o0 args,
  keeps (fun o => public o = public o0) (start args).
Proof.
  intros o0 args. unfold start. keeps_stop.
  intros w H.
  apply (keeps_await_started (fun o => public o = public o0));
    [apply thread_step_keeps_public | intros ? Hq; exact Hq | exact H].
Qed.

Lemma wait_keeps_public : forall o0 t,
  keeps (fun o => public o = public o0) (wait t).
Proof.
  intros o0 t. unfold wait.
  apply keeps_bind; [keeps_stop|intros].
  apply keeps_bind; [|intros; keeps_stop].
  apply keeps_join, thread_step_keeps_public.
Qed.

Lemma perform_keeps_public : forall o0 ev w,
  not_sample ev = true ->
  public (obj w) = public o0 -> public (obj (perform ev w)) = public o0.
Proof.
  intros o0 [args| | |t|args|s d|d|n] w N H; cbn [perform];
    try discriminate.
  - now apply (start_keeps_public o0).
  - exact H.
  - now apply (wait_keeps_public o0).
  - revert w H. unfold __call__.
    apply (keeps_bind (fun o => public o = public o0)).
    + apply start_keeps_public.
    + intros; apply wait_keeps_public.
  - now apply (set_goal_keeps_public o0).
  - now apply (update_keeps_public o0).
  - apply (keeps_join (fun o => public o = public o0) (Some n));
      [apply thread_step_keeps_public | exact H].
Qed.

Lemma history_keeps_public : forall o0 evs w,
  forallb not_sample evs = true ->
  public (obj w) = public o0 ->
  public (obj (history evs w)) = public o0.
Proof.
  intros o0 evs. induction evs as [|ev evs IH]; intros w N H; cbn in *;
    [exact H|].
  apply andb_prop in N. destruct N as [N1 N2].
  apply IH; [exact N2|]. now apply perform_keeps_public.
Qed.

Lemma float_of_int_returns : forall z w f w',
  float_of_int z w = (Returned f, w') -> f = to_double z.
Proof.
  intros z w f w'. unfold float_of_int, raise, ret.
  destruct (is_infinity (to_double z)); intros H;
    [discriminate | now injection H as <- _].
Qed.

(** C8 (as amended): [sample] returns nothing; it stores the snapshot on
    the Task itself, in the public attributes [sampled], [updated],
    [steps], [done], [pcdone], [ttg], [eta] and [elapsed], each derived
    from the private state and the clock at the time of the call.  The
    private state -- callable, counters, timestamps, flags, signals,
    outcome slot, worker -- is left as it was, also when [sample]
    fails.  Nothing but [sample] writes the eight attributes: [start],
    [stop], [wait], the synchronous call, [set_goal], [update] and the
    worker thread leave them as they are, so that a snapshot stays until
    the next [sample]. *)
Theorem sample_frame : forall w,
  private (obj (snd (sample w))) = private (obj w) /\
  (forall w',
     sample w = (Returned tt, w') ->
     exists u b,
       _updated (obj w) = Some u /\
       since (obj w) = Some b /\
       sampled (obj w') = Some (clock w (ticks w)) /\
       updated (obj w') = Some u /\
       steps (obj w') = Some (_steps (obj w)) /\
       done (obj w') = Some (_done (obj w)) /\
       pcdone (obj w') = Some (percent (_steps (obj w)) (_done (obj w))) /\
       ttg (obj w') =
         Some (estimate u b (clock w (ticks w))
                 (percent (_steps (obj w)) (_done (obj w)))) /\
       eta (obj w') =
         Some (PrimFloat.add
                 (estimate u b (clock w (ticks w))
                    (percent (_steps (obj w)) (_done (obj w))))
                 (clock w (ticks w))) /\
       elapsed (obj w') = Some (PrimFloat.sub (clock w (ticks w)) b)) /\
  (forall evs,
     forallb not_sample evs = true ->
     public (obj (history evs w)) = public (obj w)).
Proof.
  intros w. split; [|split].
  - now apply (sample_keeps_private (obj w)).
  - intros w' H.
    destruct (sample_returns w w' H) as (u & b & g & Hu & Hb & -> & G0 & G1).
    exists u, b. split; [exact Hu|]. split; [exact Hb|].
    assert (g = estimate u b (clock w (ticks w))
                  (percent (_steps (obj w)) (_done (obj w)))) as <-.
    { unfold estimate.
      destruct (percent (_steps (obj w)) (_done (obj w)) =? 0) eqn:P.
      - apply G0. now apply Z.eqb_eq.
      - apply Z.eqb_neq in P. destruct (G1 P) as (f & Hf & ->).
        now rewrite (float_of_int_returns _ _ _ _ Hf). }
    apply sampled_object_fields.
  - intros evs N. now apply history_keeps_public.
Qed.

Lemma sample_frame_witness :
  private (obj (snd (sample midway))) = private (obj midway) /\
  (forall w',
     sample midway = (Returned tt, w') ->
     exists u b,
       _updated (obj midway) = Some u /\
       since (obj midway) = Some b /\
       sampled (obj w') = Some (clock midway (ticks midway)) /\
       updated (obj w') = Some u /\
       steps (obj w') = Some (_steps (obj midway)) /\
       done (obj w') = Some (_done (obj midway)) /\
       pcdone (obj w') =
         Some (percent (_steps (obj midway)) (_done (obj midway))) /\
       ttg (obj w') =
         Some (estimate u b (clock midway (ticks midway))
                 (percent (_steps (obj midway)) (_done (obj midway)))) /\
       eta (obj w') =
         Some (PrimFloat.add
                 (estimate u b (clock midway (ticks midway))
                    (percent (_steps (obj midway)) (_done (obj midway))))
                 (clock midway (ticks midway))) /\
       elapsed (obj w') =
         Some (PrimFloat.sub (clock midway (ticks midway)) b)) /\
  (forall evs,
     forallb not_sample evs = true ->
     public (obj (history evs midway)) = public (obj midway)).
Proof. exact (sample_frame midway). Defined.

(** ** A timeout during a run that will return *)






(** ** The example: [do_work] *)

Lemma bookkeeping_effect : forall w,
  _done (obj (snd (bookkeeping w))) =
    clamp (_done (obj w) + 0) (_steps (obj w)) /\
  _steps (obj (snd (bookkeeping w))) = _steps (obj w) /\
  since (obj (snd (bookkeeping w))) = since (obj w) /\
  _updated (obj (snd (bookkeeping w))) = Some (clock w (ticks w)).
Proof. intros w. destruct w as [o c t]; destruct o. repeat split. Qed.

Lemma clamp_id : forall d s, 0 <= d <= s -> clamp d s = d.
Proof.
  intros d s H. rewrite clamp_max_min by lia. lia.
Qed.

Lemma clamp_zero : forall s, clamp (0 + 0) s = Z.min 0 s.
Proof.
  intros s. unfold clamp. cbn.
  destruct (0 >? s) eqn:E.
  - apply Z.gtb_lt in E. lia.
  - rewrite Z.gtb_ltb in E. apply Z.ltb_ge in E. lia.
Qed.

(** A callable that returns, from its [return] to the end of the
    thread: the counter gets its final update. *)
Lemma return_runs : forall r n w,
  _worker (obj w) = Some (InTarget (Return r)) ->
  _started (obj w) = true ->
  (3 <= n)%nat ->
  _done (obj (run_thread n w)) = clamp (_done (obj w) + 0) (_steps (obj w)) /\
  _steps (obj (run_thread n w)) = _steps (obj w) /\
  since (obj (run_thread n w)) = since (obj w) /\
  _updated (obj (run_thread n w)) <> None.
Proof.
  intros r n w Hw Hs Hn.
  destruct n as [|[|[|n]]]; try lia.
  cbn [run_thread]. rewrite (step_return false w r Hw).
  rewrite (step_store false _ r) by (destruct w as [o c t]; reflexivity).
  rewrite step_bookkeeping;
    [|destruct w as [o c t]; reflexivity|destruct w as [o c t]; exact Hs].
  rewrite (dead_thread_stays n _ (Terminated None));
    [|destruct (snd (bookkeeping _)) as [o c t]; reflexivity|reflexivity].
  match goal with
  | |- context [bookkeeping ?w0] => set (w1 := w0)
  end.
  destruct (bookkeeping_effect w1) as (B1 & B2 & B3 & B4).
  assert (_done (obj w1) = _done (obj w) /\ _steps (obj w1) = _steps (obj w)
          /\ since (obj w1) = since (obj w)) as (C1 & C2 & C3)
    by (destruct w as [o c t]; repeat split).
  destruct (snd (bookkeeping w1)) as [o2 c2 t2]. cbn [obj set_thread on_obj] in *.
  assert (forall t o, _done (set__worker t o) = _done o /\
                      _steps (set__worker t o) = _steps o /\
                      since (set__worker t o) = since o /\
                      _updated (set__worker t o) = _updated o) as W
    by (intros; repeat split).
  destruct (W (Some (Terminated None)) o2) as (-> & -> & -> & ->).
  rewrite B1, B2, B3, B4, C1, C2, C3. repeat split; discriminate.
Qed.

Section WorkLoop.

Variable range_max : Z.
Variable range_refused : Z -> exn.
Variable sleep_max : Z.
Variable sleep_refused : Z -> exn.

Lemma work_loop_awake : forall interval m,
  0 <= interval <= sleep_max ->
  work_loop sleep_max sleep_refused interval (S m) =
  Stopping (fun stop =>
    if stop then Return PyNone
    else Update 1 (work_loop sleep_max sleep_refused interval m)).
Proof.
  intros interval m H. cbn [work_loop]. unfold sleep.
  replace (interval <? 0) with false by (symmetry; apply Z.ltb_ge; lia).
  replace (sleep_max <? interval) with false
    by (symmetry; apply Z.ltb_ge; lia).
  reflexivity.
Qed.

Lemma work_loop_result : forall interval m stop,
  0 <= interval <= sleep_max ->
  result_of stop (work_loop sleep_max sleep_refused interval m) = Some PyNone.
Proof.
  intros interval m stop H. induction m as [|m IH]; [reflexivity|].
  rewrite work_loop_awake by exact H. cbn. destruct stop; [reflexivity|].
  exact IH.
Qed.

Lemma work_loop_stopped : forall interval m,
  result_of true (work_loop sleep_max sleep_refused interval m) = Some PyNone.
Proof. intros interval m. destruct m; reflexivity. Qed.

(** The loop, run to its end without a stop request, adds one step per
    round. *)
Lemma work_loop_runs : forall interval m n w,
  0 <= interval <= sleep_max ->
  _worker (obj w) =
    Some (InTarget (work_loop sleep_max sleep_refused interval m)) ->
  _stopping (obj w) = false ->
  _started (obj w) = true ->
  0 <= _done (obj w) ->
  _done (obj w) + Z.of_nat m <= _steps (obj w) ->
  (1 + prog_depth (work_loop sleep_max sleep_refused interval m) <= n)%nat ->
  _done (obj (run_thread n w)) = _done (obj w) + Z.of_nat m /\
  _steps (obj (run_thread n w)) = _steps (obj w) /\
  since (obj (run_thread n w)) = since (obj w) /\
  _updated (obj (run_thread n w)) <> None.
Proof.
  intros interval m. induction m as [|m IH];
    intros n w Hi Hw Hp Hs Hd Hm Hn.
  - cbn [work_loop] in Hw. cbn in Hn.
    destruct (return_runs PyNone n w Hw Hs) as (A1 & A2 & A3 & A4); [lia|].
    rewrite A1, A2, A3, clamp_id by lia. repeat split; try lia; exact A4.
  - rewrite work_loop_awake in Hw, Hn by exact Hi.
    destruct n as [|[|n]]; cbn [prog_depth] in Hn; try lia.
    cbn [run_thread]. rewrite (step_stopping false w _ Hw), Hp.
    rewrite (step_update _ 1 (work_loop sleep_max sleep_refused interval m));
      [|destruct w as [o c t]; reflexivity].
    match goal with
    | |- context [run_thread n ?w0] => set (w2 := w0)
    end.
    assert (_done (obj w2) = clamp (_done (obj w) + 1) (_steps (obj w)) /\
            _steps (obj w2) = _steps (obj w) /\
            since (obj w2) = since (obj w) /\
            _stopping (obj w2) = _stopping (obj w) /\
            _started (obj w2) = _started (obj w) /\
            _worker (obj w2) =
              Some (InTarget (work_loop sleep_max sleep_refused interval m)))
      as (C1 & C2 & C3 & C4 & C5 & C6)
      by (destruct w as [o c t]; destruct o; repeat split).
    rewrite clamp_id in C1 by lia.
    destruct (IH n w2 Hi C6) as (A1 & A2 & A3 & A4); try congruence; try lia.
    rewrite A1, A2, A3, C1, C2, C3. repeat split; try lia; exact A4.
Qed.

End WorkLoop.

Lemma consumed_keeps : forall w,
  _steps (obj (on_obj consumed w)) = _steps (obj w) /\
  _done (obj (on_obj consumed w)) = _done (obj w) /\
  since (obj (on_obj consumed w)) = since (obj w) /\
  _updated (obj (on_obj consumed w)) = _updated (obj w) /\
  (at_rest (obj w) -> at_rest (obj (on_obj consumed w))).
Proof. intros [o c t]. repeat split; apply H. Qed.

Lemma percent_full : forall n, 0 < n -> percent n n = 100.
Proof.
  intros n H. unfold percent.
  replace (n =? 0) with false by (symmetry; apply Z.eqb_neq; lia).
  cbn [negb]. rewrite Z.mul_comm. apply Z.div_mul. lia.
Qed.

(** X13: the example callable, left alone.  On a platform whose
    [range] builds lists of up to [range_max] items and whose [sleep]
    takes intervals up to [sleep_max], [do_work(interval, count)] called
    synchronously on an idle Task with no stop request, with
    [0 <= interval <= sleep_max] and [count <= range_max], returns and
    leaves [_done = _steps = count] and the Task at rest; with a positive
    [count] a [sample] then reports [done = steps = count] and
    [pcdone = 100]. *)
Theorem do_work_completes :
  forall range_max range_refused sleep_max sleep_refused interval count w,
  _running (obj w) = false ->
  _target (obj w) =
    Some (do_work range_max range_refused sleep_max sleep_refused) ->
  _stopping (obj w) = false ->
  0 <= interval <= sleep_max ->
  count <= range_max ->
  exists w',
    __call__ [PyInt interval; PyInt count] w = (Returned PyNone, w') /\
    at_rest (obj w') /\
    _steps (obj w') = count /\
    _done (obj w') = count /\
    (0 < count ->
     exists w'',
       sample w' = (Returned tt, w'') /\
       steps (obj w'') = Some count /\
       done (obj w'') = Some count /\
       pcdone (obj w'') = Some 100).
Proof.
  intros rm rr sm sr interval count w R T P Hi Hc.
  set (args := [PyInt interval; PyInt count]).
  set (k := work_loop sm sr interval (Z.to_nat count)).
  assert (first_goal (_stopping (obj w)) (do_work rm rr sm sr args) =
          Some (Some count, 0, k)) as G.
  { cbn. replace (rm <? count) with false
      by (symmetry; apply Z.ltb_ge; lia). reflexivity. }
  unfold __call__, bind.
  rewrite (start_first_goal args w _ (Some count) 0 k R T G).
  destruct (goal_declared_facts args (Some count) 0 k w)
    as (W & S & _ & P1 & _ & D & St & Hb & Hu & B).
  set (w1 := goal_declared args (Some count) 0 k w) in *.
  rewrite P in P1.
  destruct (run_thread_value k (budget w1) w1 PyNone W S)
    as (A1 & A2 & A3 & _).
  { rewrite P1. now apply work_loop_result. }
  { rewrite B. lia. }
  assert (_done (obj (run_thread (budget w1) w1)) = count /\
          _steps (obj (run_thread (budget w1) w1)) = count /\
          since (obj (run_thread (budget w1) w1)) = since (obj w1) /\
          _updated (obj (run_thread (budget w1) w1)) <> None)
    as (C1 & C2 & C3 & C4).
  { destruct (Z.leb_spec 0 count) as [Hp|Hn].
    - destruct (work_loop_runs sm sr interval (Z.to_nat count) (budget w1) w1
                  Hi W P1 S)
        as (C1 & C2 & C3 & C4); try (rewrite ?D, ?St, ?B; fold k; lia).
      rewrite C1, C2, C3, D, St. repeat split; try lia. exact C4.
    - assert (k = Return PyNone) as Hk
        by (unfold k; replace (Z.to_nat count) with 0%nat by lia;
            reflexivity).
      rewrite Hk in W, B.
      destruct (return_runs PyNone (budget w1) w1 W S)
        as (C1 & C2 & C3 & C4); [rewrite B; cbn; lia|].
      rewrite C1, C2, C3, D, St, clamp_zero. repeat split; try lia.
      exact C4. }
  rewrite (wait_value None w1 (run_thread (budget w1) w1) (InTarget k) PyNone
             W (join_run_thread None w1) A1 A2).
  set (w2 := run_thread (budget w1) w1) in *.
  destruct (consumed_keeps w2) as (K1 & K2 & K3 & K4 & K5).
  exists (on_obj consumed w2).
  assert (_steps (obj (on_obj consumed w2)) = count) as E1
    by (rewrite K1, C2; reflexivity).
  assert (_done (obj (on_obj consumed w2)) = count) as E2
    by (rewrite K2, C1; reflexivity).
  repeat split; try apply K5; try apply A3; try assumption.
  intros Hpos.
  destruct (_updated (obj w2)) as [u|] eqn:U; [|now contradiction C4].
  eexists. split.
  - apply (sample_estimates (on_obj consumed w2) u (clock w (ticks w))).
    + now rewrite K4.
    + now rewrite K3, C3.
    + rewrite E1, E2, percent_full by exact Hpos. discriminate.
    + rewrite E1, E2, percent_full by exact Hpos. reflexivity.
  - cbn [obj].
    match goal with
    | |- context [sampled_object ?t ?u ?b ?g ?o] =>
        destruct (sampled_object_fields t u b g o)
          as (_ & _ & F3 & F4 & F5 & _)
    end.
    rewrite F3, F4, F5, E1, E2, percent_full by exact Hpos.
    repeat split.
Qed.

Lemma do_work_completes_witness :
  exists w',
    __call__ [PyInt 1; PyInt 2] (fresh (Some do_work_32)) =
      (Returned PyNone, w') /\
    at_rest (obj w') /\
    _steps (obj w') = 2 /\
    _done (obj w') = 2 /\
    (0 < 2 ->
     exists w'',
       sample w' = (Returned tt, w'') /\
       steps (obj w'') = Some 2 /\
       done (obj w'') = Some 2 /\
       pcdone (obj w'') = Some 100).
Proof.
  apply (do_work_completes 2147483647
           (fun _ => OverflowError "range() result has too many items")
           2147483647
           (fun _ => Failure "IOError" "[Errno 22] Invalid argument")
           1 2 (fresh (Some do_work_32)));
    solve [reflexivity | discriminate | lia].
Defined.

(** X14: the example callable after a stop request.  Once [stop()]
    has been called, [do_work(interval, count)] with [count <= range_max]
    declares its goal and returns at its first poll of [stopping()], or at
    once when [range] gives it nothing to loop over: the call returns, the
    Task is at rest, and no step is done: [_steps = count], and [_done] is
    0, or [count] when that is negative ([set_goal] takes any goal, and
    the final [update(0)] clamps [_done] down to it). *)
Theorem do_work_stopped :
  forall range_max range_refused sleep_max sleep_refused interval count w,
  _running (obj w) = false ->
  _target (obj w) =
    Some (do_work range_max range_refused sleep_max sleep_refused) ->
  _stopping (obj w) = true ->
  count <= range_max ->
  exists w',
    __call__ [PyInt interval; PyInt count] w = (Returned PyNone, w') /\
    at_rest (obj w') /\
    _steps (obj w') = count /\
    _done (obj w') = Z.min 0 count.
Proof.
  intros rm rr sm sr interval count w R T P Hc.
  set (args := [PyInt interval; PyInt count]).
  set (k := work_loop sm sr interval (Z.to_nat count)).
  assert (first_goal (_stopping (obj w)) (do_work rm rr sm sr args) =
          Some (Some count, 0, k)) as G.
  { cbn. replace (rm <? count) with false
      by (symmetry; apply Z.ltb_ge; lia). reflexivity. }
  unfold __call__, bind.
  rewrite (start_first_goal args w _ (Some count) 0 k R T G).
  destruct (goal_declared_facts args (Some count) 0 k w)
    as (W & Hst & _ & P1 & _ & D & St & _ & _ & B).
  set (w1 := goal_declared args (Some count) 0 k w) in *.
  rewrite P in P1.
  destruct (run_thread_value k (budget w1) w1 PyNone W Hst)
    as (A1 & A2 & A3 & _).
  { rewrite P1. apply work_loop_stopped. }
  { rewrite B. lia. }
  assert (_done (obj (run_thread (budget w1) w1)) = Z.min 0 count /\
          _steps (obj (run_thread (budget w1) w1)) = count) as (C1 & C2).
  { rewrite B. unfold k in *. destruct (Z.to_nat count) as [|m].
    - destruct (return_runs PyNone
                  (S (prog_depth (work_loop sm sr interval 0))) w1 W Hst)
        as (E1 & E2 & _); [cbn; lia|].
      rewrite E1, E2, D, St, clamp_zero. auto.
    - cbn [work_loop] in *. cbn [prog_depth].
      set (X := Nat.max _ _).
      replace (S (S X)) with (1 + S X)%nat by reflexivity.
      rewrite run_thread_add.
      assert (run_thread 1 w1 = set_thread (InTarget (Return PyNone)) w1) as E0.
      { cbn [run_thread]. rewrite (step_stopping false w1 _ W), P1.
        reflexivity. }
      rewrite E0.
      destruct (return_runs PyNone (S X)
                  (set_thread (InTarget (Return PyNone)) w1))
        as (E1 & E2 & _).
      + destruct w1 as [o c t]; reflexivity.
      + destruct w1 as [o c t]; exact Hst.
      + unfold X. cbn [prog_depth]. lia.
      + rewrite E1, E2.
        replace (_done (obj (set_thread (InTarget (Return PyNone)) w1)))
          with 0 by (destruct w1 as [o c t]; cbn in *; congruence).
        replace (_steps (obj (set_thread (InTarget (Return PyNone)) w1)))
          with count by (destruct w1 as [o c t]; cbn in *; congruence).
        rewrite clamp_zero. auto. }
  rewrite (wait_value None w1 (run_thread (budget w1) w1) (InTarget k) PyNone
             W (join_run_thread None w1) A1 A2).
  destruct (consumed_keeps (run_thread (budget w1) w1)) as (K1 & K2 & _ & _ & K5).
  eexists. split; [reflexivity|].
  rewrite K1, K2. auto.
Qed.

Lemma do_work_stopped_witness :
  exists w',
    __call__ [PyInt 1; PyInt 20] (snd (stop (fresh (Some do_work_32)))) =
      (Returned PyNone, w') /\
    at_rest (obj w') /\
    _steps (obj w') = 20 /\
    _done (obj w') = Z.min 0 20.
Proof.
  apply (do_work_stopped 2147483647
           (fun _ => OverflowError "range() result has too many items")
           2147483647
           (fun _ => Failure "IOError" "[Errno 22] Invalid argument")
           1 20 (snd (stop (fresh (Some do_work_32)))));
    solve [reflexivity | discriminate | lia].
Defined.
(** ** After a failure *)

Lemma stuck_join : forall t w,
  stuck (obj w) -> join t w = (Returned tt, w).
Proof.
  intros t w [_ [e W]]. now apply (join_dead t w (Terminated e)).
Qed.

Lemma perform_keeps_stuck : forall ev w,
  stuck (obj w) -> stuck (obj (perform ev w)).
Proof.
  intros ev w H.
  assert (forall t, keeps stuck (wait t)) as Hwait.
  { intros t. unfold wait.
    apply keeps_bind; [keeps_stop|intros].
    apply keeps_bind; [|intros; keeps_stop].
    intros w0 H0. now rewrite stuck_join. }
  destruct ev as [args| | |t|args|s d|d|n]; cbn [perform].
  - rewrite start_while_running_eq by apply H. exact H.
  - destruct w as [o c t]; exact H.
  - apply (fun K : keeps stuck sample => K w H).
    unfold sample. keeps_stop.
  - now apply Hwait.
  - unfold __call__, bind.
    rewrite start_while_running_eq by apply H. exact H.
  - apply (fun K : keeps stuck (set_goal s d) => K w H).
    unfold set_goal. keeps_stop.
  - apply (fun K : keeps stuck (update d) => K w H).
    unfold update. keeps_stop.
  - destruct H as [R [e W]].
    rewrite (dead_thread_stays n w (Terminated e) W eq_refl).
    split; eauto.
Qed.

(** X15: a failure is final.  After a synchronous call whose callable
    declared its goal and then raised, the Task stays marked running with
    its worker dead; whatever is called on it afterwards, every later
    [start] raises [AlreadyStartedError]. *)
Theorem failed_task_never_restarts : forall args w f e evs args',
  _running (obj w) = false ->
  _target (obj w) = Some f ->
  declares_goal (_stopping (obj w)) (f args) = true ->
  failure_of (_stopping (obj w)) (f args) = Some e ->
  fst (start args' (history evs (snd (__call__ args w)))) =
  Raised AlreadyStartedError.
Proof.
  intros args w f e evs args' R T G F.
  assert (stuck (obj (snd (__call__ args w)))) as H.
  { apply first_goal_declares in G. destruct G as [[[s d] k] G].
    destruct (first_goal_rest _ _ s d k G) as (_ & F1 & _).
    unfold __call__, bind.
    rewrite (start_first_goal args w f s d k R T G).
    destruct (goal_declared_facts args s d k w)
      as (W & _ & Rn & P & _ & _ & _ & _ & _ & B).
    set (w1 := goal_declared args s d k w) in *.
    destruct (run_thread_failure k (budget w1) w1 e W) as (A1 & A2 & A3 & A4).
    { rewrite P, F1. exact F. }
    { rewrite B. lia. }
    assert (_exc_info (obj w1) = Some NoExcInfo) as I
      by (destruct w as [o c t]; destruct o; destruct s; reflexivity).
    rewrite (wait_exception None w1 (run_thread (budget w1) w1)
               (InTarget k) NoExcInfo W (join_run_thread None w1) A1)
      by (rewrite A3; exact I).
    cbn [snd]. unfold stuck. rewrite A4, A2. split; [exact Rn | eauto]. }
  revert H. generalize (snd (__call__ args w)). clear.
  induction evs as [|ev evs IH]; intros w H; cbn [history fold_left].
  - rewrite start_while_running_eq by apply H. reflexivity.
  - apply IH. now apply perform_keeps_stuck.
Qed.

Lemma failed_task_never_restarts_witness :
  fst (start [] (history [CallSample; CallWait None; CallStop]
                   (snd (__call__ [] (fresh (Some boom)))))) =
  Raised AlreadyStartedError.
Proof.
  apply (failed_task_never_restarts [] (fresh (Some boom)) boom
           (Failure "ValueError" "boom")); reflexivity.
Defined.

(** ** The decorator *)

(** X16: the decorated function behaves like the function.  For a
    function [f] that, given the tracker and [args], declares its goal
    and returns [r], the object built by [Thread(name)(f)], called with
    [args], returns [r] and is at rest afterwards. *)
Theorem decorated_call : forall name f args r clk n,
  declares_goal false (f args) = true ->
  result_of false (f args) = Some r ->
  exists w',
    __call__ args (mkWorld (Thread name f) clk n) = (Returned r, w') /\
    at_rest (obj w').
Proof.
  intros name f args r clk n G V.
  destruct (call_value_at_rest args (mkWorld (Thread name f) clk n) f r
              eq_refl eq_refl G V) as (w' & E & A & _).
  eauto.
Qed.

Lemma decorated_call_witness :
  exists w',
    __call__ [PyInt 1; PyInt 2] (mkWorld (Thread None do_work_32) wall 0) =
      (Returned PyNone, w') /\
    at_rest (obj w').
Proof.
  apply (decorated_call None do_work_32 [PyInt 1; PyInt 2] PyNone wall 0);
    reflexivity.
Defined.
